(** * Hand-detection page: camera capture, render loop and overlay drawing

    A shallow embedding of the [HandDetection] React component in the three
    variants that drive their own render loop:

    - [Delegated]: [src/components/HandDetection.tsx], which forwards every
      frame to an external hand-pose detector and paints its keypoints;
    - [Mock]: the variant that paints a fixed mock hand outline;
    - [Throttled]: the variant that animates the mock hands and caps the
      processing rate at about 30 Hz.

    (The fourth variant hands both the loop and the drawing to the
    MediaPipe [Camera] and [drawConnectors] helpers and has no loop of its
    own to model.)

    JavaScript numbers are IEEE 754 binary64 values, modelled by Rocq's
    primitive floats.  The browser objects the component talks to (the
    animation-frame scheduler, the video element, the media stream tracks,
    the canvas and its 2D context, the console, the camera) are modelled by
    the fields of one [Page] record that every operation threads through.
    Replies of the outside world (the detector's answer, the value of
    [Math.random()], the clock) are arguments of the operation that consumes
    them.

    [isActive] is a [useState] binding: [setIsActive] writes the cell of the
    hook, while a callback reads the value that was bound in the render
    that created it.  The tick functions therefore take the value they
    read as an argument, [active].  The ticks the component runs are the
    ones in scope of the [startDetection] that was clicked, and the button
    carries [startDetection] only in a render whose [isActive] is false
    ([onClick] below); [requestAnimationFrame] is handed that same closure
    again, so those ticks read false whatever the cell holds. *)

From Stdlib Require Import ZArith List String Bool Lia QArith Qround Floats.
Import ListNotations.

Set Warnings "-inexact-float".
Local Open Scope Z_scope.

(** ** JavaScript numbers *)

Definition number := float.

(** [ToBoolean] on a number: [0], [-0] and [NaN] are falsy. *)
Definition truthy (n : number) : bool :=
  negb (n =? 0)%float && negb (is_nan n).

Definition Math_PI : number := 3.141592653589793%float.

(** [Math.min] on two numbers: [NaN] is contagious and [-0] is below [+0]. *)
Definition Math_min (a b : number) : number :=
  if is_nan a || is_nan b then nan
  else if (a <? b)%float then a
  else if (b <? a)%float then b
  else if get_sign a then a else b.

(** An integer loop counter used in number arithmetic. *)
Definition num_of_nat (n : nat) : number :=
  of_uint63 (Uint63.of_Z (Z.of_nat n)).

(** ** The canvas and its 2D context *)

Inductive Segment : Type :=
| Arc (x y r startAngle endAngle : number)
| MoveTo (x y : number)
| LineTo (x y : number).

Inductive Shape : Type :=
| Image (frame : Z) (x y w h : number)
| FilledRect (x y w h : number) (style : string)
| ClearedRect (x y w h : number)
| Filled (p : list Segment) (style : string)
| Stroked (p : list Segment) (style : string) (lw : number).

(** The drawing state of a context together with what has been painted so
    far, oldest first. *)
Record Context2D : Type := mkContext2D {
  painted : list Shape;
  path : list Segment;
  fillStyle : string;
  strokeStyle : string;
  lineWidth : number
}.

Record Canvas : Type := mkCanvas {
  width : number;
  height : number;
  context2d : option Context2D   (* what [getContext('2d')] returns *)
}.

Definition blankContext : Context2D :=
  {| painted := []; path := []; fillStyle := "#000000";
     strokeStyle := "#000000"; lineWidth := 1%float |}.

Definition set_painted (l : list Shape) (c : Context2D) : Context2D :=
  {| painted := l; path := path c; fillStyle := fillStyle c;
     strokeStyle := strokeStyle c; lineWidth := lineWidth c |}.

Definition paint (s : Shape) (c : Context2D) : Context2D :=
  set_painted (painted c ++ [s]) c.

Definition set_path (p : list Segment) (c : Context2D) : Context2D :=
  {| painted := painted c; path := p; fillStyle := fillStyle c;
     strokeStyle := strokeStyle c; lineWidth := lineWidth c |}.

Definition set_fillStyle (s : string) (c : Context2D) : Context2D :=
  {| painted := painted c; path := path c; fillStyle := s;
     strokeStyle := strokeStyle c; lineWidth := lineWidth c |}.

Definition set_strokeStyle (s : string) (c : Context2D) : Context2D :=
  {| painted := painted c; path := path c; fillStyle := fillStyle c;
     strokeStyle := s; lineWidth := lineWidth c |}.

Definition set_lineWidth (w : number) (c : Context2D) : Context2D :=
  {| painted := painted c; path := path c; fillStyle := fillStyle c;
     strokeStyle := strokeStyle c; lineWidth := w |}.

(** Does the rectangle [(x, y, w, h)] name the whole bitmap of [cv]? *)
Definition wholeSurface (cv : Canvas) (x y w h : number) : bool :=
  Leibniz.eqb x 0%float && Leibniz.eqb y 0%float &&
  Leibniz.eqb w (width cv) && Leibniz.eqb h (height cv).

(** [ctx.clearRect(x, y, w, h)] on the context of canvas [cv]: clearing the
    whole bitmap leaves nothing painted. *)
Definition clearRect (cv : Canvas) (x y w h : number) (c : Context2D)
  : Context2D :=
  if wholeSurface cv x y w h then set_painted [] c
  else paint (ClearedRect x y w h) c.

Definition drawImage (frame : Z) (x y w h : number) (c : Context2D)
  : Context2D :=
  paint (Image frame x y w h) c.

Definition fillRect (x y w h : number) (c : Context2D) : Context2D :=
  paint (FilledRect x y w h (fillStyle c)) c.

Definition beginPath (c : Context2D) : Context2D := set_path [] c.

Definition arc (x y r a0 a1 : number) (c : Context2D) : Context2D :=
  set_path (path c ++ [Arc x y r a0 a1]) c.

Definition moveTo (x y : number) (c : Context2D) : Context2D :=
  set_path (path c ++ [MoveTo x y]) c.

Definition lineTo (x y : number) (c : Context2D) : Context2D :=
  set_path (path c ++ [LineTo x y]) c.

Definition fill (c : Context2D) : Context2D :=
  paint (Filled (path c) (fillStyle c)) c.

Definition stroke (c : Context2D) : Context2D :=
  paint (Stroked (path c) (strokeStyle c) (lineWidth c)) c.

(** ** The video element, the media stream and the page *)

Record MediaStream : Type := mkStream {
  getTracks : list Z            (* the identities of the stream's tracks *)
}.

Record Video : Type := mkVideo {
  srcObject : option MediaStream;
  videoWidth : number;
  videoHeight : number;
  currentFrame : Z              (* the frame [drawImage] would copy now *)
}.

Record Detector : Type := mkDetector {
  maxHands : Z
}.

(** The component and the part of the browser it acts on.

    [isActive], [handCount], [error] and [isLoading] are the cells behind
    the [useState] hooks; the fields ending in [Ref] are the [.current]
    slots of the [useRef] hooks ([lastFrameTime] exists in the throttled
    variant only, [detectorRef] in the delegated one only).  The remaining
    fields belong to the host: the animation-frame callbacks that are
    requested and not yet run or cancelled, the next request id
    ([requestAnimationFrame] returns a fresh non-zero id), the tracks on
    which [stop()] has been called, the lines written by [console.error],
    and the number of camera requests made through [getUserMedia]. *)
Record Page : Type := mkPage {
  isActive : bool;
  handCount : Z;
  error : option string;
  isLoading : bool;
  animationFrameRef : option Z;
  lastFrameTime : number;
  detectorRef : option Detector;
  videoRef : option Video;
  canvasRef : option Canvas;
  rafPending : list Z;
  rafNext : Z;
  stoppedTracks : list Z;
  console : list string;
  cameraRequests : nat
}.

(** *** Writing one field of the page *)

Definition setIsActive (b : bool) (st : Page) : Page :=
  mkPage b (handCount st) (error st) (isLoading st) (animationFrameRef st)
    (lastFrameTime st) (detectorRef st) (videoRef st) (canvasRef st)
    (rafPending st) (rafNext st) (stoppedTracks st) (console st)
    (cameraRequests st).

Definition setHandCount (n : Z) (st : Page) : Page :=
  mkPage (isActive st) n (error st) (isLoading st) (animationFrameRef st)
    (lastFrameTime st) (detectorRef st) (videoRef st) (canvasRef st)
    (rafPending st) (rafNext st) (stoppedTracks st) (console st)
    (cameraRequests st).

Definition setError (e : option string) (st : Page) : Page :=
  mkPage (isActive st) (handCount st) e (isLoading st) (animationFrameRef st)
    (lastFrameTime st) (detectorRef st) (videoRef st) (canvasRef st)
    (rafPending st) (rafNext st) (stoppedTracks st) (console st)
    (cameraRequests st).

Definition setIsLoading (b : bool) (st : Page) : Page :=
  mkPage (isActive st) (handCount st) (error st) b (animationFrameRef st)
    (lastFrameTime st) (detectorRef st) (videoRef st) (canvasRef st)
    (rafPending st) (rafNext st) (stoppedTracks st) (console st)
    (cameraRequests st).

Definition set_animationFrameRef (h : option Z) (st : Page) : Page :=
  mkPage (isActive st) (handCount st) (error st) (isLoading st) h
    (lastFrameTime st) (detectorRef st) (videoRef st) (canvasRef st)
    (rafPending st) (rafNext st) (stoppedTracks st) (console st)
    (cameraRequests st).

Definition set_lastFrameTime (t : number) (st : Page) : Page :=
  mkPage (isActive st) (handCount st) (error st) (isLoading st)
    (animationFrameRef st) t (detectorRef st) (videoRef st) (canvasRef st)
    (rafPending st) (rafNext st) (stoppedTracks st) (console st)
    (cameraRequests st).

Definition set_videoRef (v : option Video) (st : Page) : Page :=
  mkPage (isActive st) (handCount st) (error st) (isLoading st)
    (animationFrameRef st) (lastFrameTime st) (detectorRef st) v
    (canvasRef st) (rafPending st) (rafNext st) (stoppedTracks st)
    (console st) (cameraRequests st).

Definition set_canvasRef (c : option Canvas) (st : Page) : Page :=
  mkPage (isActive st) (handCount st) (error st) (isLoading st)
    (animationFrameRef st) (lastFrameTime st) (detectorRef st) (videoRef st)
    c (rafPending st) (rafNext st) (stoppedTracks st) (console st)
    (cameraRequests st).

Definition set_raf (pending : list Z) (next : Z) (st : Page) : Page :=
  mkPage (isActive st) (handCount st) (error st) (isLoading st)
    (animationFrameRef st) (lastFrameTime st) (detectorRef st) (videoRef st)
    (canvasRef st) pending next (stoppedTracks st) (console st)
    (cameraRequests st).

Definition set_stoppedTracks (l : list Z) (st : Page) : Page :=
  mkPage (isActive st) (handCount st) (error st) (isLoading st)
    (animationFrameRef st) (lastFrameTime st) (detectorRef st) (videoRef st)
    (canvasRef st) (rafPending st) (rafNext st) l (console st)
    (cameraRequests st).

Definition set_console (l : list string) (st : Page) : Page :=
  mkPage (isActive st) (handCount st) (error st) (isLoading st)
    (animationFrameRef st) (lastFrameTime st) (detectorRef st) (videoRef st)
    (canvasRef st) (rafPending st) (rafNext st) (stoppedTracks st) l
    (cameraRequests st).

Definition set_cameraRequests (n : nat) (st : Page) : Page :=
  mkPage (isActive st) (handCount st) (error st) (isLoading st)
    (animationFrameRef st) (lastFrameTime st) (detectorRef st) (videoRef st)
    (canvasRef st) (rafPending st) (rafNext st) (stoppedTracks st)
    (console st) n.

(** Replace the context of the mounted canvas (the context object is
    mutated in place by every drawing call). *)
Definition putContext (cv : Canvas) (c : Context2D) (st : Page) : Page :=
  set_canvasRef (Some (mkCanvas (width cv) (height cv) (Some c))) st.

(** *** Host operations *)

(** [requestAnimationFrame(cb)] queues one callback and returns its id; the
    component always stores the id in [animationFrameRef.current], so the
    two steps are modelled together:
    [animationFrameRef.current = requestAnimationFrame(cb)]. *)
Definition requestAnimationFrame (st : Page) : Page :=
  set_animationFrameRef (Some (rafNext st))
    (set_raf (rafPending st ++ [rafNext st]) (rafNext st + 1) st).

(** [cancelAnimationFrame(id)]: the request, if still queued, is dropped;
    an unknown id is ignored. *)
Definition cancelAnimationFrame (id : Z) (st : Page) : Page :=
  set_raf (remove Z.eq_dec id (rafPending st)) (rafNext st) st.

Definition console_error (line : string) (st : Page) : Page :=
  set_console (console st ++ [line]) st.

(** [stream.getTracks().forEach(track => track.stop())] *)
Definition stopTracks (s : MediaStream) (st : Page) : Page :=
  set_stoppedTracks (stoppedTracks st ++ getTracks s) st.

(** [ToBoolean(animationFrameRef.current)]: [null] and [0] are falsy. *)
Definition truthyHandle (h : option Z) : option Z :=
  match h with
  | Some id => if id =? 0 then None else Some id
  | None => None
  end.

(** The page right after the component has mounted: nothing started, the
    video and canvas elements attached to their refs, the canvas at its
    default size of 300 by 150 and blank. *)
Definition initialPage : Page :=
  {| isActive := false; handCount := 0; error := None; isLoading := false;
     animationFrameRef := None; lastFrameTime := 0%float;
     detectorRef := None;
     videoRef := Some (mkVideo None 0%float 0%float 0);
     canvasRef := Some (mkCanvas 300%float 150%float (Some blankContext));
     rafPending := []; rafNext := 1; stoppedTracks := []; console := [];
     cameraRequests := 0 |}.

(** ** Releasing the camera and the surface

    The three variants share the last two blocks of [stopDetection]. *)

(** [if (videoRef.current && videoRef.current.srcObject) { ... }]: every
    track of the attached stream is stopped and the stream is detached. *)
Definition releaseStream (st : Page) : Page :=
  match videoRef st with
  | Some v =>
      match srcObject v with
      | Some stream =>
          set_videoRef
            (Some (mkVideo None (videoWidth v) (videoHeight v)
                     (currentFrame v)))
            (stopTracks stream st)
      | None => st
      end
  | None => st
  end.

(** [if (canvasRef.current) { const ctx = ...getContext('2d');
    if (ctx) ctx.clearRect(0, 0, width, height); }] *)
Definition clearSurface (st : Page) : Page :=
  match canvasRef st with
  | Some cv =>
      match context2d cv with
      | Some ctx =>
          putContext cv
            (clearRect cv 0%float 0%float (width cv) (height cv) ctx) st
      | None => st
      end
  | None => st
  end.

(** ** Completions of code that may throw *)

Inductive Completion : Type :=
| Normal
| Throw (err : string).

(** A drawing routine acts on the context and either completes or throws;
    what it painted before throwing stays painted. *)
Definition Draw : Type := Context2D -> Completion * Context2D.

Definition done : Draw := fun c => (Normal, c).

Definition throw (err : string) : Draw := fun c => (Throw err, c).

Definition call (f : Context2D -> Context2D) : Draw :=
  fun c => (Normal, f c).

Definition andThen (m k : Draw) : Draw :=
  fun c =>
    match m c with
    | (Normal, c') => k c'
    | (Throw e, c') => (Throw e, c')
    end.

Notation "m ;; k" := (andThen m k) (at level 61, right associativity).

(** [l.forEach(f)]: the callback runs on each element in order, and an
    exception thrown by it ends the iteration. *)
Fixpoint forEach {A : Type} (f : A -> Draw) (l : list A) : Draw :=
  match l with
  | [] => done
  | a :: l' => f a ;; forEach f l'
  end.

(** [a[i]] on a JavaScript array: [undefined] outside the array. *)
Definition index {A : Type} (l : list A) (i : Z) : option A :=
  if i <? 0 then None else nth_error l (Z.to_nat i).

(** * The delegated variant ([src/components/HandDetection.tsx]) *)

Module Keypoint.
Record t : Type := mk {
  x : number;
  y : number;
  score : option number       (* [score?: number] *)
}.
End Keypoint.

Record Hand : Type := mkHand {
  keypoints : list Keypoint.t
}.

(** What [await detector.estimateHands(video)] produces. *)
Inductive Estimate : Type :=
| Resolved (hands : list Hand)
| Rejected (err : string).

Inductive CameraReply : Type :=
| Granted (stream : MediaStream)
| Refused (err : string).

Inductive PlayReply : Type :=
| Playing
| PlayRejected (err : string).

Module Delegated.

(** [p.score && p.score > 0.5] for a keypoint [p] that exists. *)
Definition confident (p : Keypoint.t) : bool :=
  match Keypoint.score p with
  | Some s => truthy s && (0.5 <? s)%float
  | None => false
  end.

Definition connections : list (Z * Z) :=
  [ (0, 1); (1, 2); (2, 3); (3, 4);
    (0, 5); (5, 6); (6, 7); (7, 8);
    (0, 9); (9, 10); (10, 11); (11, 12);
    (0, 13); (13, 14); (14, 15); (15, 16);
    (0, 17); (17, 18); (18, 19); (19, 20);
    (5, 9); (9, 13); (13, 17) ].

Definition undefinedScore : string :=
  "TypeError: Cannot read properties of undefined (reading 'score')".

(** The callback of [keypoints.forEach]. *)
Definition drawLandmark (keypoint : Keypoint.t) : Draw :=
  if confident keypoint then
    call beginPath ;;
    call (arc (Keypoint.x keypoint) (Keypoint.y keypoint) 3%float 0%float
            (2 * Math_PI)%float) ;;
    call (set_fillStyle "#FF0000") ;;
    call fill
  else done.

(** The callback of [connections.forEach].  The two lookups yield
    [undefined] outside the array; reading [.score] of [undefined]
    throws, and [&&] evaluates its operands from left to right, so the
    end point is read only when the start point is confident. *)
Definition drawConnection (kps : list Keypoint.t) (c : Z * Z) : Draw :=
  let '(start, end_) := c in
  let startPoint := index kps start in
  let endPoint := index kps end_ in
  match startPoint with
  | None => throw undefinedScore
  | Some sp =>
      if confident sp then
        match endPoint with
        | None => throw undefinedScore
        | Some ep =>
            if confident ep then
              call beginPath ;;
              call (moveTo (Keypoint.x sp) (Keypoint.y sp)) ;;
              call (lineTo (Keypoint.x ep) (Keypoint.y ep)) ;;
              call stroke
            else done
        end
      else done
  end.

(** The callback of [hands.forEach]. *)
Definition drawHand (hand : Hand) : Draw :=
  let kps := keypoints hand in
  forEach drawLandmark kps ;;
  call (set_strokeStyle "#00FF00") ;;
  call (set_lineWidth 2%float) ;;
  forEach (drawConnection kps) connections.

Definition drawHands (hands : list Hand) (st : Page) : Completion * Page :=
  match canvasRef st with
  | None => (Normal, st)
  | Some canvas =>
      match context2d canvas with
      | None => (Normal, st)
      | Some ctx =>
          let ctx := clearRect canvas 0%float 0%float (width canvas)
                       (height canvas) ctx in
          let ctx :=
            match videoRef st with
            | Some video =>
                drawImage (currentFrame video) 0%float 0%float
                  (width canvas) (height canvas) ctx
            | None => ctx
            end in
          let '(r, ctx) := forEach drawHand hands ctx in
          (r, putContext canvas ctx st)
      end
  end.

(** One tick of the loop.  [active] is the value of [isActive] that the
    callback reads, [reply] what the awaited [estimateHands] call
    produces.  An exception of the [try] block, from the detector or from
    [drawHands], is logged by the [catch] clause. *)
Definition detectHands (active : bool) (reply : Estimate) (st : Page)
  : Page :=
  match videoRef st, detectorRef st, canvasRef st with
  | Some _, Some _, Some _ =>
      let st :=
        match reply with
        | Resolved hands =>
            let st := setHandCount (Z.of_nat (List.length hands)) st in
            match drawHands hands st with
            | (Normal, st) => st
            | (Throw _, st) => console_error "Hand detection error:" st
            end
        | Rejected _ => console_error "Hand detection error:" st
        end in
      if active then requestAnimationFrame st else st
  | _, _, _ => st
  end.

Definition modelNotLoaded : string :=
  "Hand detection model not loaded yet. Please try again.".

Definition cameraFailed : string :=
  "Failed to access camera. Please ensure camera permissions are granted.".

(** The [catch] clause of [startDetection]. *)
Definition startFailed (st : Page) : Page :=
  console_error "Camera error:" (setError (Some cameraFailed) st).

(** [startDetection], up to the end of its [try] block.  [camera] is the
    outcome of [getUserMedia], [play] that of [video.play()]; the
    [onloadedmetadata] handler it installs is [onloadedmetadata] below. *)
Definition startDetection (camera : CameraReply) (play : PlayReply)
    (st : Page) : Page :=
  let st := setError None st in
  match detectorRef st with
  | None => setError (Some modelNotLoaded) st
  | Some _ =>
      let st := set_cameraRequests (S (cameraRequests st)) st in
      match camera with
      | Refused _ => startFailed st
      | Granted stream =>
          match videoRef st with
          | Some v =>
              let st :=
                set_videoRef
                  (Some (mkVideo (Some stream) (videoWidth v)
                           (videoHeight v) (currentFrame v))) st in
              match play with
              | Playing => st
              | PlayRejected _ => startFailed st
              end
          | None => st
          end
      end
  end.

(** Assigning [canvas.width] or [canvas.height] resets the bitmap and the
    drawing state of the context. *)
Definition resize (w h : number) (cv : Canvas) : Canvas :=
  mkCanvas w h
    (match context2d cv with
     | Some _ => Some blankContext
     | None => None
     end).

Definition onloadedmetadata (active : bool) (reply : Estimate) (st : Page)
  : Page :=
  match videoRef st, canvasRef st with
  | Some v, Some cv =>
      let st :=
        set_canvasRef (Some (resize (videoWidth v) (videoHeight v) cv)) st in
      let st := setIsActive true st in
      detectHands active reply st
  | _, _ => st
  end.

Definition stopDetection (st : Page) : Page :=
  let st := setIsActive false st in
  let st := setHandCount 0 st in
  let st :=
    match truthyHandle (animationFrameRef st) with
    | Some id => cancelAnimationFrame id st
    | None => st
    end in
  clearSurface (releaseStream st).

End Delegated.

(** * The mock variants *)

(** [for (let i = 0; i < n; i++) body(i)] *)
Definition forLoop (n : nat) (body : nat -> Context2D -> Context2D)
    (c : Context2D) : Context2D :=
  fold_left (fun acc i => body i acc) (seq 0 n) c.

(** [Math.floor(Math.random() * 2) + 1] for a draw [r] of [Math.random()].
    Doubling a binary64 number below 1, taking its floor and adding 1 are
    all exact, so the count is computed on the rational value of the
    draw. *)
Definition randomHandCount (r : Q) : Z :=
  Qfloor (r * 2) + 1.

Module Mock.
Section WithMath.

Variables Math_sin Math_cos : number -> number.

(** The body of the inner loop of [drawMockHands], for finger [f]. *)
Definition drawFinger (centerX centerY handSize : number) (f : nat)
    (ctx : Context2D) : Context2D :=
  let angle := (num_of_nat f * Math_PI / 4 - Math_PI / 8)%float in
  let fingerLength := (handSize * 0.7)%float in
  let endX := (centerX + Math_cos angle * fingerLength)%float in
  let endY := (centerY + Math_sin angle * fingerLength)%float in
  let ctx := beginPath ctx in
  let ctx := moveTo centerX centerY ctx in
  let ctx := lineTo endX endY ctx in
  let ctx := set_strokeStyle "#00FF00" ctx in
  let ctx := set_lineWidth 2%float ctx in
  let ctx := stroke ctx in
  let ctx := beginPath ctx in
  let ctx := arc endX endY 3%float 0%float (2 * Math_PI)%float ctx in
  let ctx := set_fillStyle "#FF0000" ctx in
  fill ctx.

(** The body of the outer loop of [drawMockHands], for hand [h]. *)
Definition drawMockHand (width height : number) (h : nat)
    (ctx : Context2D) : Context2D :=
  let centerX := (width * (0.25 + num_of_nat h * 0.5))%float in
  let centerY := (height * 0.5)%float in
  let handSize := (Math_min width height * 0.2)%float in
  let ctx := beginPath ctx in
  let ctx :=
    arc centerX centerY (handSize * 0.3)%float 0%float (2 * Math_PI)%float
      ctx in
  let ctx := set_strokeStyle "#00FF00" ctx in
  let ctx := set_lineWidth 2%float ctx in
  let ctx := stroke ctx in
  forLoop 5 (drawFinger centerX centerY handSize) ctx.

Definition drawMockHands (ctx : Context2D) (width height : number)
    (count : Z) : Context2D :=
  let ctx := set_fillStyle "rgba(255, 255, 255, 0.2)" ctx in
  let ctx := fillRect 0%float 0%float width height ctx in
  forLoop (Z.to_nat count) (drawMockHand width height) ctx.

(** One tick of the loop; [active] is the value of [isActive] that the
    callback reads and [r] the draw of [Math.random()]. *)
Definition detectHands (active : bool) (r : Q) (st : Page) : Page :=
  match videoRef st, canvasRef st with
  | Some video, Some canvas =>
      match context2d canvas with
      | None => st
      | Some ctx =>
          let ctx :=
            drawImage (currentFrame video) 0%float 0%float (width canvas)
              (height canvas) ctx in
          if active then
            let randomHandCount := randomHandCount r in
            let st := setHandCount randomHandCount st in
            let ctx :=
              drawMockHands ctx (width canvas) (height canvas)
                randomHandCount in
            requestAnimationFrame (putContext canvas ctx st)
          else putContext canvas ctx st
      end
  | _, _ => st
  end.

End WithMath.

Definition stopDetection (st : Page) : Page :=
  let st := setIsActive false st in
  let st := setHandCount 0 st in
  let st :=
    match truthyHandle (animationFrameRef st) with
    | Some id => cancelAnimationFrame id st
    | None => st
    end in
  clearSurface (releaseStream st).

(** The [onloadedmetadata] handler that [startDetection] installs; the
    [detectHands] it calls is the one of the same render, which reads
    [isActive] as [active]. *)
Definition onloadedmetadata (Math_sin Math_cos : number -> number)
    (active : bool) (r : Q) (st : Page) : Page :=
  match videoRef st, canvasRef st with
  | Some v, Some cv =>
      let st :=
        set_canvasRef
          (Some (Delegated.resize (videoWidth v) (videoHeight v) cv)) st in
      let st := setIsActive true st in
      let st := setIsLoading false st in
      detectHands Math_sin Math_cos active r st
  | _, _ => st
  end.

End Mock.

Module Throttled.
Section WithMath.

Variables Math_sin Math_cos : number -> number.

(** The body of the inner loop of [drawSimulatedHands], for finger [f]. *)
Definition drawFinger (centerX centerY handSize time : number) (f : nat)
    (ctx : Context2D) : Context2D :=
  let angleOffset :=
    (Math_sin (time * 2 + num_of_nat f * 0.7) * 0.2)%float in
  let angle :=
    (num_of_nat f * Math_PI / 4 - Math_PI / 8 + angleOffset)%float in
  let lengthMod :=
    (Math_sin (time * 3 + num_of_nat f * 1.2) * 0.1 + 0.9)%float in
  let fingerLength := (handSize * 0.7 * lengthMod)%float in
  let endX := (centerX + Math_cos angle * fingerLength)%float in
  let endY := (centerY + Math_sin angle * fingerLength)%float in
  let ctx := beginPath ctx in
  let ctx := moveTo centerX centerY ctx in
  let ctx := lineTo endX endY ctx in
  let ctx := set_strokeStyle "#00FF00" ctx in
  let ctx := set_lineWidth 2%float ctx in
  let ctx := stroke ctx in
  let ctx := beginPath ctx in
  let ctx := arc endX endY 4%float 0%float (2 * Math_PI)%float ctx in
  let ctx := set_fillStyle "#FF0000" ctx in
  let ctx := fill ctx in
  let midX := (centerX + Math_cos angle * fingerLength * 0.5)%float in
  let midY := (centerY + Math_sin angle * fingerLength * 0.5)%float in
  let ctx := beginPath ctx in
  let ctx := arc midX midY 3%float 0%float (2 * Math_PI)%float ctx in
  let ctx := set_fillStyle "#FF0000" ctx in
  fill ctx.

(** The body of the outer loop of [drawSimulatedHands], for hand [h]. *)
Definition drawSimulatedHand (width height time : number) (h : nat)
    (ctx : Context2D) : Context2D :=
  let xOffset :=
    (Math_sin (time * 0.7 + num_of_nat h * 1.5) * width * 0.15)%float in
  let yOffset :=
    (Math_cos (time * 0.5 + num_of_nat h * 2.3) * height * 0.1)%float in
  let centerX := (width * (0.25 + num_of_nat h * 0.5) + xOffset)%float in
  let centerY := (height * 0.5 + yOffset)%float in
  let handSize := (Math_min width height * 0.15)%float in
  let ctx := beginPath ctx in
  let ctx :=
    arc centerX centerY (handSize * 0.25)%float 0%float (2 * Math_PI)%float
      ctx in
  let ctx := set_fillStyle "rgba(0, 255, 0, 0.2)" ctx in
  let ctx := fill ctx in
  let ctx := set_strokeStyle "#00FF00" ctx in
  let ctx := set_lineWidth 2%float ctx in
  let ctx := stroke ctx in
  forLoop 5 (drawFinger centerX centerY handSize time) ctx.

Definition drawSimulatedHands (ctx : Context2D) (width height : number)
    (count : Z) (time : number) : Context2D :=
  let ctx := set_fillStyle "rgba(0, 0, 0, 0.2)" ctx in
  let ctx := fillRect 0%float 0%float width height ctx in
  forLoop (Z.to_nat count) (drawSimulatedHand width height time) ctx.

(** Is the tick at [timestamp] too close to the last processed one? *)
Definition throttled (timestamp : number) (st : Page) : bool :=
  (timestamp - lastFrameTime st <? 33)%float.

(** One tick of the loop; [active] is the value of [isActive] that the
    callback reads, [r] the draw of [Math.random()], [now] the value of
    [Date.now()] and [timestamp] the argument the scheduler passes. *)
Definition updateCanvas (active : bool) (r : Q) (now : number)
    (timestamp : number) (st : Page) : Page :=
  match videoRef st, canvasRef st with
  | Some video, Some canvas =>
      if throttled timestamp st then
        if active then requestAnimationFrame st else st
      else
        let st := set_lastFrameTime timestamp st in
        match context2d canvas with
        | None => st
        | Some ctx =>
            let ctx :=
              drawImage (currentFrame video) 0%float 0%float (width canvas)
                (height canvas) ctx in
            if active then
              let randomHandCount := randomHandCount r in
              let st := setHandCount randomHandCount st in
              let time := (now * 0.001)%float in
              let ctx :=
                drawSimulatedHands ctx (width canvas) (height canvas)
                  randomHandCount time in
              requestAnimationFrame (putContext canvas ctx st)
            else putContext canvas ctx st
        end
  | _, _ => st
  end.

End WithMath.

Definition stopDetection (st : Page) : Page :=
  let st := setIsActive false st in
  let st := setHandCount 0 st in
  let st :=
    match truthyHandle (animationFrameRef st) with
    | Some id => set_animationFrameRef None (cancelAnimationFrame id st)
    | None => st
    end in
  clearSurface (releaseStream st).

(** The [onloadedmetadata] handler that [startDetection] installs,
    together with the [then] and [catch] callbacks of the [play()] promise
    it awaits; [PlayRejected err] is a rejection with an error whose
    message is [err].  The callback it hands to [requestAnimationFrame] is
    the [updateCanvas] of the same render. *)
Definition onloadedmetadata (play : PlayReply) (st : Page) : Page :=
  match videoRef st, canvasRef st with
  | Some v, Some cv =>
      let st :=
        set_canvasRef
          (Some (Delegated.resize (videoWidth v) (videoHeight v) cv)) st in
      match play with
      | Playing =>
          let st := setIsActive true st in
          let st := setIsLoading false st in
          requestAnimationFrame st
      | PlayRejected err =>
          let st := setError (Some ("Failed to play video: " ++ err)%string)
                      st in
          setIsLoading false st
      end
  | _, _ => st
  end.

End Throttled.

(** * Which handler the button carries

    [onClick={isActive ? stopDetection : startDetection}], the same in the
    three variants: the handler of the button of a render in which
    [isActive] is bound to the given value. *)

Inductive Handler : Type :=
| StartDetection
| StopDetection.

Definition onClick (isActive : bool) : Handler :=
  if isActive then StopDetection else StartDetection.

(** * Notions used in the statements *)

(** What is painted on the drawing surface of the page. *)
Definition surface (st : Page) : list Shape :=
  match canvasRef st with
  | Some cv =>
      match context2d cv with
      | Some c => painted c
      | None => []
      end
  | None => []
  end.

(** The current video frame, copied over the whole of canvas [cv]. *)
Definition frameOn (v : Video) (cv : Canvas) : Shape :=
  Image (currentFrame v) 0%float 0%float (width cv) (height cv).

(** What [drawHands] copies under the overlay: the current frame of the
    video element, when the element is there. *)
Definition backdrop (st : Page) (cv : Canvas) : list Shape :=
  match videoRef st with
  | Some v => [frameOn v cv]
  | None => []
  end.

(** The stream attached to the video sink, if any. *)
Definition attachedStream (st : Page) : option MediaStream :=
  match videoRef st with
  | Some v => srcObject v
  | None => None
  end.

(** The refs of the component are attached and the canvas has a context. *)
Definition ready (st : Page) (v : Video) (cv : Canvas) (ctx : Context2D)
  : Prop :=
  videoRef st = Some v /\ canvasRef st = Some cv /\ context2d cv = Some ctx.

(** Between [st] and [st'] exactly one animation frame was requested, and
    its id is the one the component holds. *)
Definition scheduledOne (st st' : Page) : Prop :=
  rafPending st' = rafPending st ++ [rafNext st] /\
  rafNext st' = rafNext st + 1 /\
  animationFrameRef st' = Some (rafNext st).

(** Between [st] and [st'] no animation frame was requested. *)
Definition scheduledNone (st st' : Page) : Prop :=
  rafPending st' = rafPending st /\ rafNext st' = rafNext st.

(** Every queued animation-frame request is the one whose id the component
    holds.  The component stores the id of each request it makes, and the
    host drops a request from the queue before running its callback. *)
Definition tracked (st : Page) : Prop :=
  forall id, In id (rafPending st) ->
    animationFrameRef st = Some id /\ id <> 0.

(** The host takes the oldest queued request out of the queue in order to
    run its callback. *)
Definition takeFrame (st : Page) : Page :=
  set_raf (tl (rafPending st)) (rafNext st) st.

(** The state the component is in before [startDetection] and after
    [stopDetection]: not active, no hand counted, no stream attached, no
    tick queued, nothing painted. *)
Definition Idle (st : Page) : Prop :=
  isActive st = false /\ handCount st = 0 /\ attachedStream st = None /\
  rafPending st = [] /\ surface st = [].

(** Nothing is left for [stopDetection] to reset or release. *)
Definition quiet (st : Page) : Prop :=
  isActive st = false /\ handCount st = 0 /\ attachedStream st = None /\
  surface st = [].

(** The handle the component stores, if it is one that [stopDetection]
    would cancel, names no queued request. *)
Definition handleSpent (st : Page) : Prop :=
  match truthyHandle (animationFrameRef st) with
  | Some id => ~ In id (rafPending st)
  | None => True
  end.

(** What [stopDetection] has to achieve from [st]. *)
Definition stoppedFrom (st st' : Page) : Prop :=
  Idle st' /\
  stoppedTracks st' =
    stoppedTracks st ++
    match attachedStream st with
    | Some s => getTracks s
    | None => []
    end.

(** A draw of [Math.random()] lies in [[0, 1)]. *)
Definition validDraw (r : Q) : Prop := (0 <= r)%Q /\ (r < 1)%Q.

(** *** The overlay of the delegated variant, in the words of the spec *)

(** The confidence score of a keypoint is strictly greater than 0.5. *)
Definition aboveThreshold (p : Keypoint.t) : bool :=
  match Keypoint.score p with
  | Some s => (0.5 <? s)%float
  | None => false
  end.

(** The circular landmark marker of a keypoint. *)
Definition marker (p : Keypoint.t) : Shape :=
  Filled
    [Arc (Keypoint.x p) (Keypoint.y p) 3%float 0%float (2 * Math_PI)%float]
    "#FF0000".

(** The line segment of a connection between two keypoints. *)
Definition joint (sp ep : Keypoint.t) : Shape :=
  Stroked
    [MoveTo (Keypoint.x sp) (Keypoint.y sp);
     LineTo (Keypoint.x ep) (Keypoint.y ep)]
    "#00FF00" 2%float.

Definition markersOf (kps : list Keypoint.t) : list Shape :=
  map marker (filter aboveThreshold kps).

Definition jointOf (kps : list Keypoint.t) (c : Z * Z) : list Shape :=
  match index kps (fst c), index kps (snd c) with
  | Some sp, Some ep =>
      if aboveThreshold sp && aboveThreshold ep then [joint sp ep] else []
  | _, _ => []
  end.

Definition overlayOf (h : Hand) : list Shape :=
  markersOf (keypoints h) ++
  flat_map (jointOf (keypoints h)) Delegated.connections.

(** The stroke settings that [drawHand] installs before the connections. *)
Definition outlinePen (c : Context2D) : Prop :=
  strokeStyle c = "#00FF00"%string /\ lineWidth c = 2%float.

(** Is [s] a line segment from the position of [sp] to that of [ep]? *)
Definition joins (sp ep : Keypoint.t) (s : Shape) : bool :=
  match s with
  | Stroked [MoveTo x0 y0; LineTo x1 y1] _ _ =>
      Leibniz.eqb x0 (Keypoint.x sp) && Leibniz.eqb y0 (Keypoint.y sp) &&
      Leibniz.eqb x1 (Keypoint.x ep) && Leibniz.eqb y1 (Keypoint.y ep)
  | _ => false
  end.

(** Is [s] a copy of video frame number [n]? *)
Definition showsFrame (n : Z) (s : Shape) : bool :=
  match s with
  | Image frame _ _ _ _ => frame =? n
  | _ => false
  end.

(** The mark a failed acquisition leaves on the page: the [catch] clause of
    [startDetection] has put its message in the error cell. *)
Definition acquisitionFailed (st : Page) : Prop :=
  error st = Some Delegated.cameraFailed.

(** The queue holds at most one request of the component, the one whose
    id it stores, and ids are handed out from 1 upwards. *)
Definition wellScheduled (st : Page) : Prop :=
  0 < rafNext st /\
  (rafPending st = [] \/
   exists id, rafPending st = [id] /\ animationFrameRef st = Some id /\
              0 < id < rafNext st).

(** The part of a delegated tick that lies inside [try ... catch]. *)
Definition tryDetect (reply : Estimate) (st : Page) : Page :=
  match reply with
  | Resolved hands =>
      match
        Delegated.drawHands hands
          (setHandCount (Z.of_nat (List.length hands)) st)
      with
      | (Normal, st') => st'
      | (Throw _, st') => console_error "Hand detection error:" st'
      end
  | Rejected _ => console_error "Hand detection error:" st
  end.

(** *** Runs of ticks of the mock variants *)

Record MockTick : Type := mkMockTick {
  sees : bool;                  (* the value of [isActive] the tick reads *)
  draw : Q;                     (* [Math.random()] *)
  clock : number;               (* [Date.now()] *)
  stamp : number                (* the timestamp passed by the scheduler *)
}.

Definition mockRun (Math_sin Math_cos : number -> number)
    (ticks : list MockTick) (st : Page) : Page :=
  fold_left
    (fun st t => Mock.detectHands Math_sin Math_cos (sees t) (draw t) st)
    ticks st.

Definition throttledRun (Math_sin Math_cos : number -> number)
    (ticks : list MockTick) (st : Page) : Page :=
  fold_left
    (fun st t =>
       Throttled.updateCanvas Math_sin Math_cos (sees t) (draw t) (clock t)
         (stamp t) st)
    ticks st.

(** The hand count of [st'] is still the one of [st], or it is 1 or 2. *)
Definition countKeptOrOneTwo (st st' : Page) : Prop :=
  handCount st' = handCount st \/ 1 <= handCount st' <= 2.

(** *** Concrete pages used in the examples *)

Definition liveStream : MediaStream := mkStream [11; 12].

(** A started page: a two-track stream attached, one tick queued. *)
Definition runningPage : Page :=
  {| isActive := true; handCount := 2; error := None; isLoading := false;
     animationFrameRef := Some 7; lastFrameTime := 100%float;
     detectorRef := Some (mkDetector 2);
     videoRef := Some (mkVideo (Some liveStream) 640%float 480%float 42);
     canvasRef :=
       Some (mkCanvas 640%float 480%float
               (Some (paint (Image 41 0%float 0%float 640%float 480%float)
                        blankContext)));
     rafPending := [7]; rafNext := 8; stoppedTracks := []; console := [];
     cameraRequests := 1 |}.

(** The mounted page once the model has loaded. *)
Definition loadedPage : Page :=
  {| isActive := false; handCount := 0; error := None; isLoading := false;
     animationFrameRef := None; lastFrameTime := 0%float;
     detectorRef := Some (mkDetector 2);
     videoRef := Some (mkVideo None 640%float 480%float 42);
     canvasRef := Some (mkCanvas 300%float 150%float (Some blankContext));
     rafPending := []; rafNext := 1; stoppedTracks := []; console := [];
     cameraRequests := 0 |}.

(** That page after a click on its start button, the camera granted. *)
Definition startedPage : Page :=
  Delegated.startDetection (Granted liveStream) Playing loadedPage.

(** Keypoint number [i] of an example hand, placed at [(i, i)]. *)
Definition keypointAt (s : number) (i : nat) : Keypoint.t :=
  Keypoint.mk (num_of_nat i) (num_of_nat i) (Some s).

(** An example hand of [n] keypoints that all have score [s]. *)
Definition handOf (n : nat) (s : number) : Hand :=
  mkHand (map (keypointAt s) (seq 0 n)).

(** * Properties *)

(** ** Numbers *)

Lemma Leibniz_eqb_refl (a : number) : Leibniz.eqb a a = true.
Proof. apply FloatAxioms.Leibniz.eqb_spec. reflexivity. Qed.

(** A number strictly greater than 0.5 is neither zero nor [NaN], so the
    [p.score &&] guard never changes the outcome of [p.score > 0.5]. *)
Lemma above_half_truthy (s : number) :
  (0.5 <? s)%float = true -> truthy s = true.
Proof.
  unfold truthy, is_nan.
  rewrite !FloatAxioms.eqb_spec, FloatAxioms.ltb_spec.
  replace (Prim2SF 0.5) with (S754_finite false 4503599627370496 (-53))
    by (vm_compute; reflexivity).
  replace (Prim2SF 0) with (S754_zero false) by (vm_compute; reflexivity).
  destruct (Prim2SF s) as [sg | sg | | sg m e]; cbn.
  - discriminate.
  - destruct sg; [discriminate | reflexivity].
  - discriminate.
  - destruct sg; [discriminate |].
    intros _. unfold SFeqb, SFcompare.
    rewrite Z.compare_refl, Pos.compare_cont_refl. reflexivity.
Qed.

Lemma confident_aboveThreshold (p : Keypoint.t) :
  Delegated.confident p = aboveThreshold p.
Proof.
  unfold Delegated.confident, aboveThreshold.
  destruct (Keypoint.score p) as [s |]; [| reflexivity].
  destruct (0.5 <? s)%float eqn:E.
  - rewrite (above_half_truthy s E). reflexivity.
  - apply andb_false_r.
Qed.

Lemma randomHandCount_range (r : Q) :
  validDraw r -> 1 <= randomHandCount r <= 2.
Proof.
  intros [H0 H1]. unfold randomHandCount.
  assert (Hlo : 0 <= Qfloor (r * 2)).
  { change 0 with (Qfloor 0). apply Qfloor_resp_le.
    apply Qmult_le_0_compat; [exact H0 | discriminate]. }
  assert (Hhi : Qfloor (r * 2) < 2).
  { destruct (Z_lt_le_dec (Qfloor (r * 2)) 2) as [Hlt | Hge]; [exact Hlt |].
    exfalso. apply (Qlt_irrefl (r * 2)).
    apply Qlt_le_trans with (inject_Z 2).
    - change (inject_Z 2) with (1 * 2)%Q.
      apply Qmult_lt_compat_r; [reflexivity | exact H1].
    - apply Qle_trans with (inject_Z (Qfloor (r * 2))).
      + rewrite <- Zle_Qle. exact Hge.
      + apply Qfloor_le. }
  lia.
Qed.

(** ** Drawing routines *)

Section ForEach.

Context {A : Type} (f : A -> Draw) (g : A -> list Shape)
        (Inv : Context2D -> Prop).

(** If on every element the callback completes, keeps [Inv] and paints
    [g a], then the whole iteration completes and paints the shapes of
    the elements in order. *)
Lemma forEach_paints (l : list A) :
  (forall a c, In a l -> Inv c ->
     exists c', f a c = (Normal, c') /\ Inv c' /\
                painted c' = painted c ++ g a) ->
  forall c, Inv c ->
    exists c', forEach f l c = (Normal, c') /\ Inv c' /\
               painted c' = painted c ++ flat_map g l.
Proof.
  induction l as [| a l IH]; intros Hf c Hc.
  - exists c. cbn. rewrite app_nil_r. repeat split; assumption.
  - destruct (Hf a c (or_introl eq_refl) Hc) as (c1 & E1 & I1 & P1).
    destruct (IH (fun b d Hb => Hf b d (or_intror Hb)) c1 I1)
      as (c2 & E2 & I2 & P2).
    exists c2. cbn [forEach]. unfold andThen. rewrite E1.
    repeat split; try assumption.
    rewrite P2, P1. cbn [flat_map]. apply eq_sym, app_assoc.
Qed.

End ForEach.

(** Whatever happens, a callback that only adds to the painting makes the
    iteration only add to the painting. *)
Lemma forEach_extends {A : Type} (f : A -> Draw) (l : list A) :
  (forall a c, exists more, painted (snd (f a c)) = painted c ++ more) ->
  forall c, exists more, painted (snd (forEach f l c)) = painted c ++ more.
Proof.
  intros Hf. induction l as [| a l IH]; intros c.
  - exists []. cbn. now rewrite app_nil_r.
  - cbn [forEach]. unfold andThen.
    destruct (Hf a c) as (m1 & E1).
    destruct (f a c) as [[| e] c1] eqn:E; cbn [snd] in *.
    + destruct (IH c1) as (m2 & E2). exists (m1 ++ m2).
      rewrite E2, E1. apply eq_sym, app_assoc.
    + exists m1. exact E1.
Qed.

Lemma index_Some {A : Type} (l : list A) (i : Z) :
  0 <= i < Z.of_nat (List.length l) -> exists a, index l i = Some a.
Proof.
  intros [Hlo Hhi]. unfold index.
  destruct (i <? 0) eqn:E; [apply Z.ltb_lt in E; lia |].
  destruct (nth_error l (Z.to_nat i)) as [a |] eqn:N.
  - now exists a.
  - apply nth_error_None in N. lia.
Qed.

Lemma index_None {A : Type} (l : list A) (i : Z) :
  Z.of_nat (List.length l) <= i -> index l i = None.
Proof.
  intros H. unfold index.
  destruct (i <? 0); [reflexivity |].
  apply nth_error_None. lia.
Qed.

Lemma connections_in_range :
  Forall (fun c => 0 <= fst c <= 20 /\ 0 <= snd c <= 20)
    Delegated.connections.
Proof. unfold Delegated.connections. repeat constructor; cbn; lia. Qed.

Lemma drawLandmark_paints (p : Keypoint.t) (c : Context2D) :
  exists c',
    Delegated.drawLandmark p c = (Normal, c') /\
    painted c' = painted c ++ (if aboveThreshold p then [marker p] else []).
Proof.
  unfold Delegated.drawLandmark. rewrite confident_aboveThreshold.
  destruct (aboveThreshold p).
  - eexists. split; [reflexivity |]. reflexivity.
  - exists c. split; [reflexivity |]. now rewrite app_nil_r.
Qed.

Lemma markersOf_flat_map (kps : list Keypoint.t) :
  flat_map (fun p => if aboveThreshold p then [marker p] else []) kps =
  markersOf kps.
Proof.
  unfold markersOf. induction kps as [| p kps IH]; [reflexivity |].
  cbn. destruct (aboveThreshold p); cbn; now rewrite IH.
Qed.

Lemma drawConnection_paints (kps : list Keypoint.t) (cn : Z * Z)
    (c : Context2D) :
  21 <= Z.of_nat (List.length kps) ->
  In cn Delegated.connections ->
  outlinePen c ->
  exists c',
    Delegated.drawConnection kps cn c = (Normal, c') /\ outlinePen c' /\
    painted c' = painted c ++ jointOf kps cn.
Proof.
  intros Hlen Hin [Hs Hw].
  pose proof (proj1 (Forall_forall _ _) connections_in_range cn Hin)
    as [Hst Hen].
  destruct cn as [s e]. cbn [fst snd] in *.
  destruct (index_Some kps s ltac:(lia)) as (sp & Es).
  destruct (index_Some kps e ltac:(lia)) as (ep & Ee).
  unfold Delegated.drawConnection, jointOf. cbn [fst snd].
  rewrite Es, Ee, !confident_aboveThreshold.
  destruct (aboveThreshold sp); cbn [andb].
  - destruct (aboveThreshold ep).
    + eexists. split; [reflexivity |]. split; [split; assumption |].
      cbn. unfold joint. now rewrite Hs, Hw.
    + exists c. split; [reflexivity |]. split; [split; assumption |].
      now rewrite app_nil_r.
  - exists c. split; [reflexivity |]. split; [split; assumption |].
    now rewrite app_nil_r.
Qed.

Lemma drawHand_paints (h : Hand) (c : Context2D) :
  21 <= Z.of_nat (List.length (keypoints h)) ->
  exists c',
    Delegated.drawHand h c = (Normal, c') /\
    painted c' = painted c ++ overlayOf h.
Proof.
  intros Hlen. unfold Delegated.drawHand, overlayOf.
  destruct (forEach_paints Delegated.drawLandmark
              (fun p => if aboveThreshold p then [marker p] else [])
              (fun _ => True) (keypoints h)
              (fun p d _ _ =>
                 match drawLandmark_paints p d with
                 | ex_intro _ d' (conj E P) =>
                     ex_intro _ d' (conj E (conj I P))
                 end) c I) as (c1 & E1 & _ & P1).
  set (c2 := set_lineWidth 2%float (set_strokeStyle "#00FF00" c1)).
  destruct (forEach_paints (Delegated.drawConnection (keypoints h))
              (jointOf (keypoints h)) outlinePen Delegated.connections
              (fun cn d Hin Hd =>
                 drawConnection_paints (keypoints h) cn d Hlen Hin Hd)
              c2 (conj eq_refl eq_refl)) as (c3 & E3 & _ & P3).
  exists c3. split.
  - unfold andThen at 1. rewrite E1. unfold andThen, call. exact E3.
  - rewrite P3. subst c2. cbn [painted set_lineWidth set_strokeStyle].
    rewrite P1, markersOf_flat_map. apply eq_sym, app_assoc.
Qed.

Lemma drawLandmark_extends (p : Keypoint.t) (c : Context2D) :
  exists more,
    painted (snd (Delegated.drawLandmark p c)) = painted c ++ more.
Proof.
  destruct (drawLandmark_paints p c) as (c' & E & P).
  rewrite E. eexists. exact P.
Qed.

Lemma drawConnection_extends (kps : list Keypoint.t) (cn : Z * Z)
    (c : Context2D) :
  exists more,
    painted (snd (Delegated.drawConnection kps cn c)) = painted c ++ more.
Proof.
  unfold Delegated.drawConnection. destruct cn as [s e].
  destruct (index kps s) as [sp |];
    [| exists []; cbn; now rewrite app_nil_r].
  destruct (Delegated.confident sp);
    [| exists []; cbn; now rewrite app_nil_r].
  destruct (index kps e) as [ep |];
    [| exists []; cbn; now rewrite app_nil_r].
  destruct (Delegated.confident ep);
    [| exists []; cbn; now rewrite app_nil_r].
  eexists. cbn. reflexivity.
Qed.

Lemma drawHand_extends (h : Hand) (c : Context2D) :
  exists more, painted (snd (Delegated.drawHand h c)) = painted c ++ more.
Proof.
  unfold Delegated.drawHand.
  destruct (forEach_extends Delegated.drawLandmark (keypoints h)
              drawLandmark_extends c) as (m1 & E1).
  unfold andThen at 1.
  destruct (forEach Delegated.drawLandmark (keypoints h) c)
    as [[| err] c1]; cbn [snd] in E1.
  - unfold andThen, call.
    destruct (forEach_extends (Delegated.drawConnection (keypoints h))
                Delegated.connections
                (drawConnection_extends (keypoints h))
                (set_lineWidth 2%float (set_strokeStyle "#00FF00" c1)))
      as (m2 & E2).
    exists (m1 ++ m2). rewrite E2. cbn [painted set_lineWidth set_strokeStyle].
    rewrite E1. apply eq_sym, app_assoc.
  - exists m1. exact E1.
Qed.

Lemma forEach_completes {A : Type} (f : A -> Draw) (l : list A) :
  (forall a c, In a l -> fst (f a c) = Normal) ->
  forall c, fst (forEach f l c) = Normal.
Proof.
  induction l as [| a l IH]; intros Hf c; [reflexivity |].
  cbn [forEach]. unfold andThen.
  pose proof (Hf a c (or_introl eq_refl)) as Ha.
  destruct (f a c) as [[| e] c1]; cbn [fst] in Ha; [| discriminate].
  apply IH. intros b d Hb. apply Hf. now right.
Qed.

Lemma drawConnection_completes (kps : list Keypoint.t) (cn : Z * Z)
    (c : Context2D) :
  21 <= Z.of_nat (List.length kps) ->
  In cn Delegated.connections ->
  fst (Delegated.drawConnection kps cn c) = Normal.
Proof.
  intros Hlen Hin.
  pose proof (proj1 (Forall_forall _ _) connections_in_range cn Hin)
    as [Hst Hen].
  destruct cn as [s e]. cbn [fst snd] in Hst, Hen.
  destruct (index_Some kps s ltac:(lia)) as (sp & Es).
  destruct (index_Some kps e ltac:(lia)) as (ep & Ee).
  unfold Delegated.drawConnection. rewrite Es, Ee.
  destruct (Delegated.confident sp), (Delegated.confident ep); reflexivity.
Qed.

Lemma wholeSurface_own (cv : Canvas) :
  wholeSurface cv 0%float 0%float (width cv) (height cv) = true.
Proof.
  unfold wholeSurface. rewrite !Leibniz_eqb_refl. reflexivity.
Qed.

Lemma clearRect_whole (cv : Canvas) (c : Context2D) :
  painted (clearRect cv 0%float 0%float (width cv) (height cv) c) = [].
Proof. unfold clearRect. rewrite wholeSurface_own. reflexivity. Qed.

Lemma forEach_drawHand_paints (hands : list Hand) (c : Context2D) :
  Forall (fun h => 21 <= Z.of_nat (List.length (keypoints h))) hands ->
  exists c',
    forEach Delegated.drawHand hands c = (Normal, c') /\
    painted c' = painted c ++ flat_map overlayOf hands.
Proof.
  intros Hall.
  destruct (forEach_paints Delegated.drawHand overlayOf (fun _ => True) hands)
    with (c := c) as (c' & E & _ & P); [| exact I |].
  - intros h d Hin _.
    destruct (drawHand_paints h d) as (d' & E & P).
    + exact (proj1 (Forall_forall _ _) Hall h Hin).
    + exists d'. repeat split; assumption.
  - exists c'. split; assumption.
Qed.

Lemma drawHands_surface (hands : list Hand) (st : Page) (cv : Canvas)
    (ctx : Context2D) :
  canvasRef st = Some cv ->
  context2d cv = Some ctx ->
  Forall (fun h => 21 <= Z.of_nat (List.length (keypoints h))) hands ->
  exists st',
    Delegated.drawHands hands st = (Normal, st') /\
    surface st' = backdrop st cv ++ flat_map overlayOf hands.
Proof.
  intros Hcv Hctx Hall. unfold Delegated.drawHands. rewrite Hcv, Hctx.
  set (c0 := clearRect cv 0%float 0%float (width cv) (height cv) ctx).
  set (c1 := match videoRef st with
             | Some video =>
                 drawImage (currentFrame video) 0%float 0%float (width cv)
                   (height cv) c0
             | None => c0
             end).
  assert (P1 : painted c1 = backdrop st cv).
  { subst c1 c0. unfold backdrop, frameOn.
    destruct (videoRef st); cbn; now rewrite clearRect_whole. }
  destruct (forEach_drawHand_paints hands c1 Hall) as (c2 & E2 & P2).
  rewrite E2. eexists. split; [reflexivity |].
  unfold surface, putContext. cbn. now rewrite P2, P1.
Qed.

(** ** The overlay of the delegated variant *)

(** C2, as amended: when the drawing surface and its context are there and
    every hand has at least 21 keypoints, [drawHands] completes and the
    surface shows the video frame followed, hand by hand, by one circular
    marker for each keypoint whose score is strictly greater than 0.5 and
    by one line segment for each connection whose two end points both have
    a score strictly greater than 0.5, and by nothing else; a keypoint of
    score 0.49, of score exactly 0.5, or without a score is not above the
    threshold. *)
Theorem overlay_gated_by_threshold (hands : list Hand) (st : Page)
    (cv : Canvas) (ctx : Context2D) :
  canvasRef st = Some cv ->
  context2d cv = Some ctx ->
  Forall (fun h => 21 <= Z.of_nat (List.length (keypoints h))) hands ->
  (exists st',
     Delegated.drawHands hands st = (Normal, st') /\
     surface st' = backdrop st cv ++ flat_map overlayOf hands) /\
  (forall p, Delegated.confident p = aboveThreshold p) /\
  (forall x y,
     aboveThreshold (Keypoint.mk x y (Some 0.49%float)) = false /\
     aboveThreshold (Keypoint.mk x y (Some 0.5%float)) = false /\
     aboveThreshold (Keypoint.mk x y None) = false).
Proof.
  intros Hcv Hctx Hall. split; [| split].
  - exact (drawHands_surface hands st cv ctx Hcv Hctx Hall).
  - exact confident_aboveThreshold.
  - intros x y. repeat split.
Qed.

Lemma overlay_gated_by_threshold_witness :
  exists st',
    Delegated.drawHands [handOf 21 0.9%float; handOf 21 0.5%float]
      runningPage = (Normal, st') /\
    surface st' =
      backdrop runningPage
        (mkCanvas 640%float 480%float
           (Some (paint (Image 41 0%float 0%float 640%float 480%float)
                    blankContext))) ++
      flat_map overlayOf [handOf 21 0.9%float; handOf 21 0.5%float].
Proof.
  refine (proj1 (overlay_gated_by_threshold _ runningPage _ _ eq_refl eq_refl
                   _)).
  repeat constructor; vm_compute; discriminate.
Defined.

(** C2 as stated fails on a hand of fewer than 21 keypoints: with 18
    keypoints that all have score 0.9, the lookup of joint 18 for the
    connection (17, 18) throws, so the palm connection (5, 9), whose end
    points both lie above the threshold, is never drawn, although the
    connection (0, 1) is. *)
Lemma short_hand_loses_connections :
  index (keypoints (handOf 18 0.9%float)) 5 = Some (keypointAt 0.9%float 5) /\
  index (keypoints (handOf 18 0.9%float)) 9 = Some (keypointAt 0.9%float 9) /\
  aboveThreshold (keypointAt 0.9%float 5) = true /\
  aboveThreshold (keypointAt 0.9%float 9) = true /\
  In (5, 9) Delegated.connections /\
  fst (Delegated.drawHands [handOf 18 0.9%float] runningPage) =
    Throw Delegated.undefinedScore /\
  existsb (joins (keypointAt 0.9%float 5) (keypointAt 0.9%float 9))
    (surface (snd (Delegated.drawHands [handOf 18 0.9%float] runningPage))) =
    false /\
  existsb (joins (keypointAt 0.9%float 0) (keypointAt 0.9%float 1))
    (surface (snd (Delegated.drawHands [handOf 18 0.9%float] runningPage))) =
    true.
Proof.
  repeat split; try (vm_compute; reflexivity).
  unfold Delegated.connections. cbn. tauto.
Qed.

(** C10: every joint index of the connection list lies between 0 and 20;
    on a hand of at least 21 keypoints both lookups of every connection
    find a keypoint and drawing the connections never throws; the bound is
    needed, since on any shorter hand some connection has a lookup outside
    the array, and it is not checked, since drawing a hand of 20 confident
    keypoints throws on reading the score of the missing keypoint. *)
Theorem connection_lookups_in_bounds :
  Forall (fun c => 0 <= fst c <= 20 /\ 0 <= snd c <= 20)
    Delegated.connections /\
  (forall kps : list Keypoint.t,
     21 <= Z.of_nat (List.length kps) ->
     (forall c, In c Delegated.connections ->
        (exists sp, index kps (fst c) = Some sp) /\
        (exists ep, index kps (snd c) = Some ep)) /\
     (forall ctx,
        fst (forEach (Delegated.drawConnection kps) Delegated.connections
               ctx) = Normal)) /\
  (forall kps : list Keypoint.t,
     Z.of_nat (List.length kps) < 21 ->
     exists c, In c Delegated.connections /\
               (index kps (fst c) = None \/ index kps (snd c) = None)) /\
  fst (Delegated.drawHand (handOf 20 0.9%float) blankContext) =
    Throw Delegated.undefinedScore.
Proof.
  split; [exact connections_in_range |]. split; [| split].
  - intros kps Hlen. split.
    + intros c Hin.
      pose proof (proj1 (Forall_forall _ _) connections_in_range c Hin)
        as [Hst Hen].
      split; apply index_Some; lia.
    + intros ctx. apply forEach_completes.
      intros cn d Hin. now apply drawConnection_completes.
  - intros kps Hlen. exists (19, 20). split.
    + unfold Delegated.connections. cbn. tauto.
    + right. apply index_None. cbn. lia.
  - vm_compute. reflexivity.
Qed.

Lemma connection_lookups_in_bounds_witness :
  fst (forEach (Delegated.drawConnection (keypoints (handOf 21 0.9%float)))
         Delegated.connections blankContext) = Normal.
Proof.
  refine (proj2 (proj1 (proj2 connection_lookups_in_bounds)
                   (keypoints (handOf 21 0.9%float)) _) blankContext).
  vm_compute. discriminate.
Defined.

(** ** Ticks of the render loop *)

Lemma forLoop_extends (body : nat -> Context2D -> Context2D) (n : nat) :
  (forall i c, exists more, painted (body i c) = painted c ++ more) ->
  forall c, exists more, painted (forLoop n body c) = painted c ++ more.
Proof.
  intros Hb. unfold forLoop. generalize 0%nat.
  induction n as [| n IH]; intros k c; cbn [seq fold_left].
  - exists []. now rewrite app_nil_r.
  - destruct (Hb k c) as (m1 & E1).
    destruct (IH (S k) (body k c)) as (m2 & E2).
    exists (m1 ++ m2). rewrite E2, E1. apply eq_sym, app_assoc.
Qed.

Lemma mock_drawFinger_extends (sn cs : number -> number)
    (cx cy size : number) (f : nat) (c : Context2D) :
  exists more,
    painted (Mock.drawFinger sn cs cx cy size f c) = painted c ++ more.
Proof.
  eexists. unfold Mock.drawFinger. cbn. rewrite <- app_assoc. reflexivity.
Qed.

Lemma mock_drawMockHand_extends (sn cs : number -> number)
    (w h : number) (i : nat) (c : Context2D) :
  exists more,
    painted (Mock.drawMockHand sn cs w h i c) = painted c ++ more.
Proof.
  unfold Mock.drawMockHand.
  match goal with
  | |- exists _, painted (forLoop 5 ?b ?c0) = _ =>
      destruct (forLoop_extends b 5
                  (fun j d => mock_drawFinger_extends sn cs _ _ _ j d) c0)
        as (m & E)
  end.
  eexists. rewrite E. cbn. rewrite <- app_assoc. reflexivity.
Qed.

(** The mock renderer first tints the whole surface, then draws. *)
Lemma mock_drawMockHands_extends (sn cs : number -> number)
    (c : Context2D) (w h : number) (n : Z) :
  exists more,
    painted (Mock.drawMockHands sn cs c w h n) =
    painted c ++
    FilledRect 0%float 0%float w h "rgba(255, 255, 255, 0.2)" :: more.
Proof.
  unfold Mock.drawMockHands.
  match goal with
  | |- exists _, painted (forLoop ?k ?b ?c0) = _ =>
      destruct (forLoop_extends b k
                  (fun j d => mock_drawMockHand_extends sn cs w h j d) c0)
        as (m & E)
  end.
  exists m. rewrite E. cbn. rewrite <- app_assoc. reflexivity.
Qed.

Lemma throttled_drawFinger_extends (sn cs : number -> number)
    (cx cy size time : number) (f : nat) (c : Context2D) :
  exists more,
    painted (Throttled.drawFinger sn cs cx cy size time f c) =
    painted c ++ more.
Proof.
  eexists. unfold Throttled.drawFinger. cbn. rewrite <- !app_assoc.
  reflexivity.
Qed.

Lemma throttled_drawSimulatedHand_extends (sn cs : number -> number)
    (w h time : number) (i : nat) (c : Context2D) :
  exists more,
    painted (Throttled.drawSimulatedHand sn cs w h time i c) =
    painted c ++ more.
Proof.
  unfold Throttled.drawSimulatedHand.
  match goal with
  | |- exists _, painted (forLoop 5 ?b ?c0) = _ =>
      destruct (forLoop_extends b 5
                  (fun j d => throttled_drawFinger_extends sn cs _ _ _ _ j d)
                  c0) as (m & E)
  end.
  eexists. rewrite E. cbn. rewrite <- !app_assoc. reflexivity.
Qed.

Lemma throttled_drawSimulatedHands_extends (sn cs : number -> number)
    (c : Context2D) (w h : number) (n : Z) (time : number) :
  exists more,
    painted (Throttled.drawSimulatedHands sn cs c w h n time) =
    painted c ++ FilledRect 0%float 0%float w h "rgba(0, 0, 0, 0.2)" :: more.
Proof.
  unfold Throttled.drawSimulatedHands.
  match goal with
  | |- exists _, painted (forLoop ?k ?b ?c0) = _ =>
      destruct (forLoop_extends b k
                  (fun j d =>
                     throttled_drawSimulatedHand_extends sn cs w h time j d)
                  c0) as (m & E)
  end.
  exists m. rewrite E. cbn. rewrite <- app_assoc. reflexivity.
Qed.

(** [drawHands] touches nothing but the canvas. *)
Lemma drawHands_only_canvas (hands : list Hand) (st : Page) :
  exists c, snd (Delegated.drawHands hands st) = set_canvasRef c st.
Proof.
  unfold Delegated.drawHands.
  destruct (canvasRef st) as [cv |] eqn:Ecv.
  - destruct (context2d cv) as [ctx |].
    + match goal with
      | |- context [forEach Delegated.drawHand hands ?c0] =>
          destruct (forEach Delegated.drawHand hands c0) as [r c1]
      end.
      eexists. reflexivity.
    + exists (Some cv). destruct st; cbn in *. now subst.
  - exists None. destruct st; cbn in *. now subst.
Qed.

(** When the surface is there, [drawHands] clears it, copies the current
    frame and only then paints hands. *)
Lemma drawHands_backdrop (hands : list Hand) (st : Page) (cv : Canvas)
    (ctx : Context2D) :
  canvasRef st = Some cv ->
  context2d cv = Some ctx ->
  exists overlay,
    surface (snd (Delegated.drawHands hands st)) = backdrop st cv ++ overlay.
Proof.
  intros Hcv Hctx. unfold Delegated.drawHands. rewrite Hcv, Hctx.
  match goal with
  | |- context [forEach Delegated.drawHand hands ?c0] =>
      destruct (forEach_extends Delegated.drawHand hands drawHand_extends c0)
        as (m & E);
      assert (P0 : painted c0 = backdrop st cv)
        by (unfold backdrop, frameOn; destruct (videoRef st); cbn;
            now rewrite clearRect_whole);
      destruct (forEach Delegated.drawHand hands c0) as [r c1]
  end.
  exists m. cbn in *. now rewrite E, P0.
Qed.

Lemma delegated_tick_unfold (active : bool) (reply : Estimate) (st : Page)
    (v : Video) (d : Detector) (cv : Canvas) :
  videoRef st = Some v -> detectorRef st = Some d -> canvasRef st = Some cv ->
  Delegated.detectHands active reply st =
  if active then requestAnimationFrame (tryDetect reply st)
  else tryDetect reply st.
Proof.
  intros Hv Hd Hc. unfold Delegated.detectHands, tryDetect.
  rewrite Hv, Hd, Hc. destruct reply as [hands | err]; [| reflexivity].
  destruct (Delegated.drawHands hands _) as [[| e] st1]; reflexivity.
Qed.

(** The [try] block leaves the scheduler alone. *)
Lemma tryDetect_scheduler (reply : Estimate) (st : Page) :
  rafPending (tryDetect reply st) = rafPending st /\
  rafNext (tryDetect reply st) = rafNext st /\
  animationFrameRef (tryDetect reply st) = animationFrameRef st.
Proof.
  unfold tryDetect. destruct reply as [hands | err]; [| now cbn].
  destruct (drawHands_only_canvas hands
              (setHandCount (Z.of_nat (List.length hands)) st)) as (c & E).
  destruct (Delegated.drawHands hands _) as [[| e] st1];
    cbn [snd] in E; subst st1; now cbn.
Qed.

Lemma requestAnimationFrame_scheduledOne (st0 st : Page) :
  rafPending st = rafPending st0 -> rafNext st = rafNext st0 ->
  scheduledOne st0 (requestAnimationFrame st).
Proof.
  intros Hp Hn. unfold scheduledOne, requestAnimationFrame. cbn.
  now rewrite Hp, Hn.
Qed.

Lemma delegated_tick_scheduling (active : bool) (reply : Estimate)
    (st : Page) :
  if active then
    scheduledOne st (Delegated.detectHands true reply st) \/
    Delegated.detectHands true reply st = st
  else scheduledNone st (Delegated.detectHands false reply st).
Proof.
  destruct (videoRef st) as [v |] eqn:Hv;
    [destruct (detectorRef st) as [d |] eqn:Hd;
     [destruct (canvasRef st) as [cv |] eqn:Hc |] |].
  - rewrite !(delegated_tick_unfold _ reply st v d cv Hv Hd Hc).
    destruct (tryDetect_scheduler reply st) as (Hp & Hn & _).
    destruct active.
    + left. now apply requestAnimationFrame_scheduledOne.
    + now split.
  - unfold Delegated.detectHands. rewrite Hv, Hd, Hc.
    destruct active; [now right | now split].
  - unfold Delegated.detectHands. rewrite Hv, Hd.
    destruct active; [now right | now split].
  - unfold Delegated.detectHands. rewrite Hv.
    destruct active; [now right | now split].
Qed.

Lemma mock_tick_unfold (sn cs : number -> number) (active : bool) (r : Q)
    (st : Page) (v : Video) (cv : Canvas) (ctx : Context2D) :
  ready st v cv ctx ->
  Mock.detectHands sn cs active r st =
  if active then
    requestAnimationFrame
      (putContext cv
         (Mock.drawMockHands sn cs
            (drawImage (currentFrame v) 0%float 0%float (width cv)
               (height cv) ctx)
            (width cv) (height cv) (randomHandCount r))
         (setHandCount (randomHandCount r) st))
  else
    putContext cv
      (drawImage (currentFrame v) 0%float 0%float (width cv) (height cv) ctx)
      st.
Proof.
  intros (Hv & Hc & Hx). unfold Mock.detectHands. now rewrite Hv, Hc, Hx.
Qed.

Lemma mock_tick_inactive (sn cs : number -> number) (r : Q) (st : Page) :
  scheduledNone st (Mock.detectHands sn cs false r st) /\
  handCount (Mock.detectHands sn cs false r st) = handCount st.
Proof.
  unfold Mock.detectHands, scheduledNone.
  destruct (videoRef st); [| now repeat split].
  destruct (canvasRef st) as [cv |]; [| now repeat split].
  destruct (context2d cv); now repeat split.
Qed.

Lemma throttled_tick_unfold (sn cs : number -> number) (active : bool)
    (r : Q) (now_ ts : number) (st : Page) (v : Video) (cv : Canvas)
    (ctx : Context2D) :
  ready st v cv ctx ->
  Throttled.throttled ts st = false ->
  Throttled.updateCanvas sn cs active r now_ ts st =
  if active then
    requestAnimationFrame
      (putContext cv
         (Throttled.drawSimulatedHands sn cs
            (drawImage (currentFrame v) 0%float 0%float (width cv)
               (height cv) ctx)
            (width cv) (height cv) (randomHandCount r) (now_ * 0.001)%float)
         (setHandCount (randomHandCount r) (set_lastFrameTime ts st)))
  else
    putContext cv
      (drawImage (currentFrame v) 0%float 0%float (width cv) (height cv) ctx)
      (set_lastFrameTime ts st).
Proof.
  intros (Hv & Hc & Hx) Ht. unfold Throttled.updateCanvas.
  now rewrite Hv, Hc, Ht, Hx.
Qed.

Lemma throttled_tick_skipped (sn cs : number -> number) (active : bool)
    (r : Q) (now_ ts : number) (st : Page) (v : Video) (cv : Canvas) :
  videoRef st = Some v -> canvasRef st = Some cv ->
  Throttled.throttled ts st = true ->
  Throttled.updateCanvas sn cs active r now_ ts st =
  if active then requestAnimationFrame st else st.
Proof.
  intros Hv Hc Ht. unfold Throttled.updateCanvas. now rewrite Hv, Hc, Ht.
Qed.

Lemma throttled_tick_inactive (sn cs : number -> number) (r : Q)
    (now_ ts : number) (st : Page) :
  scheduledNone st (Throttled.updateCanvas sn cs false r now_ ts st) /\
  handCount (Throttled.updateCanvas sn cs false r now_ ts st) = handCount st.
Proof.
  unfold Throttled.updateCanvas, scheduledNone.
  destruct (videoRef st); [| now repeat split].
  destruct (canvasRef st) as [cv |]; [| now repeat split].
  destruct (Throttled.throttled ts st); [now repeat split |].
  destruct (context2d cv); now repeat split.
Qed.

Lemma tryDetect_resolved (hands : list Hand) (st : Page) (v : Video)
    (cv : Canvas) (ctx : Context2D) :
  ready st v cv ctx ->
  handCount (tryDetect (Resolved hands) st) =
    Z.of_nat (List.length hands) /\
  (exists overlay,
     surface (tryDetect (Resolved hands) st) = frameOn v cv :: overlay) /\
  (Forall (fun h => 21 <= Z.of_nat (List.length (keypoints h))) hands ->
   surface (tryDetect (Resolved hands) st) =
     frameOn v cv :: flat_map overlayOf hands).
Proof.
  intros (Hv & Hc & Hx). unfold tryDetect.
  set (st0 := setHandCount (Z.of_nat (List.length hands)) st).
  assert (Hb : backdrop st0 cv = [frameOn v cv])
    by (unfold backdrop; subst st0; cbn; now rewrite Hv).
  destruct (drawHands_only_canvas hands st0) as (c & Eo).
  destruct (drawHands_backdrop hands st0 cv ctx Hc Hx) as (m & Em).
  rewrite Hb in Em.
  split; [| split].
  - destruct (Delegated.drawHands hands st0) as [[| e] st1];
      cbn [snd] in Eo; subst st1; reflexivity.
  - exists m.
    destruct (Delegated.drawHands hands st0) as [[| e] st1];
      cbn [snd] in Em; exact Em.
  - intros Hall.
    destruct (drawHands_surface hands st0 cv ctx Hc Hx Hall) as (st1 & E & S).
    rewrite E, S, Hb. reflexivity.
Qed.

(** ** The render loop *)

(** What a tick would do according to the value of [isActive] it reads.
    A tick that reads [isActive] as false requests no
    further tick, in every variant and every state.  A tick that reads
    [isActive] as true, finds the video element, the canvas and its context
    (and, for the delegated variant, the detector), is not skipped by the
    throttle and whose detector call resolves: takes the hand count from
    the frame processor, has the current video frame on the surface with
    the overlay painted after it, and requests exactly one next tick, whose
    id it stores. *)
Theorem tick_processes_and_reschedules :
  (forall reply st,
     scheduledNone st (Delegated.detectHands false reply st)) /\
  (forall sn cs r st,
     scheduledNone st (Mock.detectHands sn cs false r st)) /\
  (forall sn cs r now_ ts st,
     scheduledNone st (Throttled.updateCanvas sn cs false r now_ ts st)) /\
  (forall hands st v d cv ctx,
     ready st v cv ctx -> detectorRef st = Some d ->
     handCount (Delegated.detectHands true (Resolved hands) st) =
       Z.of_nat (List.length hands) /\
     (exists overlay,
        surface (Delegated.detectHands true (Resolved hands) st) =
          frameOn v cv :: overlay) /\
     (Forall (fun h => 21 <= Z.of_nat (List.length (keypoints h))) hands ->
      surface (Delegated.detectHands true (Resolved hands) st) =
        frameOn v cv :: flat_map overlayOf hands) /\
     scheduledOne st (Delegated.detectHands true (Resolved hands) st)) /\
  (forall sn cs r st v cv ctx,
     ready st v cv ctx ->
     handCount (Mock.detectHands sn cs true r st) = randomHandCount r /\
     surface (Mock.detectHands sn cs true r st) =
       painted
         (Mock.drawMockHands sn cs
            (drawImage (currentFrame v) 0%float 0%float (width cv)
               (height cv) ctx)
            (width cv) (height cv) (randomHandCount r)) /\
     (exists overlay,
        surface (Mock.detectHands sn cs true r st) =
          surface st ++
          frameOn v cv ::
          FilledRect 0%float 0%float (width cv) (height cv)
            "rgba(255, 255, 255, 0.2)" :: overlay) /\
     scheduledOne st (Mock.detectHands sn cs true r st)) /\
  (forall sn cs r now_ ts st v cv ctx,
     ready st v cv ctx -> Throttled.throttled ts st = false ->
     handCount (Throttled.updateCanvas sn cs true r now_ ts st) =
       randomHandCount r /\
     lastFrameTime (Throttled.updateCanvas sn cs true r now_ ts st) = ts /\
     surface (Throttled.updateCanvas sn cs true r now_ ts st) =
       painted
         (Throttled.drawSimulatedHands sn cs
            (drawImage (currentFrame v) 0%float 0%float (width cv)
               (height cv) ctx)
            (width cv) (height cv) (randomHandCount r)
            (now_ * 0.001)%float) /\
     (exists overlay,
        surface (Throttled.updateCanvas sn cs true r now_ ts st) =
          surface st ++
          frameOn v cv ::
          FilledRect 0%float 0%float (width cv) (height cv)
            "rgba(0, 0, 0, 0.2)" :: overlay) /\
     scheduledOne st (Throttled.updateCanvas sn cs true r now_ ts st)).
Proof.
  repeat match goal with |- _ /\ _ => split end.
  - intros reply st. exact (delegated_tick_scheduling false reply st).
  - intros sn cs r st. exact (proj1 (mock_tick_inactive sn cs r st)).
  - intros sn cs r now_ ts st.
    exact (proj1 (throttled_tick_inactive sn cs r now_ ts st)).
  - intros hands st v d cv ctx Hr Hd.
    pose proof Hr as (Hv & Hc & Hx).
    rewrite (delegated_tick_unfold true _ st v d cv Hv Hd Hc).
    destruct (tryDetect_resolved hands st v cv ctx Hr) as (Hn & Ho & Ha).
    destruct (tryDetect_scheduler (Resolved hands) st) as (Hp & Hq & _).
    split; [exact Hn |]. split; [exact Ho |]. split; [exact Ha |].
    now apply requestAnimationFrame_scheduledOne.
  - intros sn cs r st v cv ctx Hr.
    rewrite (mock_tick_unfold sn cs true r st v cv ctx Hr).
    destruct Hr as (Hv & Hc & Hx).
    repeat split.
    destruct (mock_drawMockHands_extends sn cs
                (drawImage (currentFrame v) 0%float 0%float (width cv)
                   (height cv) ctx)
                (width cv) (height cv) (randomHandCount r)) as (m & E).
    exists m. unfold surface at 2. rewrite Hc, Hx.
    unfold surface, requestAnimationFrame, putContext. cbn.
    rewrite E. cbn. rewrite <- app_assoc. reflexivity.
  - intros sn cs r now_ ts st v cv ctx Hr Ht.
    rewrite (throttled_tick_unfold sn cs true r now_ ts st v cv ctx Hr Ht).
    destruct Hr as (Hv & Hc & Hx).
    repeat split.
    destruct (throttled_drawSimulatedHands_extends sn cs
                (drawImage (currentFrame v) 0%float 0%float (width cv)
                   (height cv) ctx)
                (width cv) (height cv) (randomHandCount r)
                (now_ * 0.001)%float) as (m & E).
    exists m. unfold surface at 2. rewrite Hc, Hx.
    unfold surface, requestAnimationFrame, putContext. cbn.
    rewrite E. cbn. rewrite <- app_assoc. reflexivity.
Qed.

Lemma tick_processes_and_reschedules_witness :
  scheduledOne runningPage
    (Mock.detectHands (fun x => x) (fun x => x) true (1 # 2) runningPage).
Proof.
  destruct tick_processes_and_reschedules as (_ & _ & _ & _ & H & _).
  refine (proj2 (proj2 (proj2
            (H (fun x => x) (fun x => x) (1 # 2)%Q runningPage _ _ _ _)))).
  repeat split.
Defined.

(** Two kinds of tick that read [isActive] as true on
    a fully mounted page whose video shows frame 42 draw no frame: a tick of the
    throttled variant that comes 10 ms after the last processed one, and a
    tick of the delegated variant whose detector call rejects.  Neither
    copies the current frame to the surface, and the throttled one leaves
    the hand count as it was. *)
Lemma skipped_or_failed_tick_draws_nothing :
  Throttled.throttled 110%float runningPage = true /\
  surface
    (Throttled.updateCanvas (fun x => x) (fun x => x) true (1 # 2) 0%float
       110%float runningPage) = surface runningPage /\
  existsb (showsFrame 42)
    (surface
       (Throttled.updateCanvas (fun x => x) (fun x => x) true (1 # 2)
          0%float 110%float runningPage)) = false /\
  handCount
    (Throttled.updateCanvas (fun x => x) (fun x => x) true (1 # 2) 0%float
       110%float runningPage) = handCount runningPage /\
  existsb (showsFrame 42)
    (surface (Delegated.detectHands true (Rejected "busy") runningPage)) =
    false.
Proof. repeat split. Qed.

(** What a skipped tick would do if it read [isActive] as true: in the
    throttled variant, a tick of the mounted component that
    reads [isActive] as true and comes less than 33 ms after the last
    processed timestamp does nothing but request the next tick: the hand
    count, the surface and the last processed timestamp are unchanged, and
    exactly one tick is requested. *)
Theorem throttled_tick_still_reschedules (sn cs : number -> number) (r : Q)
    (now_ ts : number) (st : Page) (v : Video) (cv : Canvas) :
  videoRef st = Some v ->
  canvasRef st = Some cv ->
  Throttled.throttled ts st = true ->
  Throttled.updateCanvas sn cs true r now_ ts st = requestAnimationFrame st /\
  handCount (Throttled.updateCanvas sn cs true r now_ ts st) = handCount st /\
  surface (Throttled.updateCanvas sn cs true r now_ ts st) = surface st /\
  lastFrameTime (Throttled.updateCanvas sn cs true r now_ ts st) =
    lastFrameTime st /\
  scheduledOne st (Throttled.updateCanvas sn cs true r now_ ts st).
Proof.
  intros Hv Hc Ht.
  rewrite (throttled_tick_skipped sn cs true r now_ ts st v cv Hv Hc Ht).
  repeat split.
Qed.

Lemma throttled_tick_still_reschedules_witness :
  scheduledOne runningPage
    (Throttled.updateCanvas (fun x => x) (fun x => x) true (1 # 2) 0%float
       110%float runningPage).
Proof.
  refine (proj2 (proj2 (proj2 (proj2
            (throttled_tick_still_reschedules (fun x => x) (fun x => x)
               (1 # 2)%Q 0%float 110%float runningPage _ _
               eq_refl eq_refl eq_refl))))).
Defined.

(** What a failed tick would do if it read [isActive] as true: in the
    delegated variant, when the detector call of a tick of the
    mounted component rejects while the tick reads [isActive] as true, the
    failure is logged through [console.error], nothing else of the page is
    touched, and exactly one next tick is requested; the same holds of the
    scheduling whatever the detector answers, and a failure while drawing
    is logged in the same way. *)
Theorem detector_failure_keeps_loop (err : string) (st : Page) (v : Video)
    (d : Detector) (cv : Canvas) :
  videoRef st = Some v ->
  detectorRef st = Some d ->
  canvasRef st = Some cv ->
  Delegated.detectHands true (Rejected err) st =
    requestAnimationFrame (console_error "Hand detection error:" st) /\
  console (Delegated.detectHands true (Rejected err) st) =
    console st ++ ["Hand detection error:"%string] /\
  scheduledOne st (Delegated.detectHands true (Rejected err) st) /\
  (forall reply, scheduledOne st (Delegated.detectHands true reply st)) /\
  (forall hands e,
     fst (Delegated.drawHands hands
            (setHandCount (Z.of_nat (List.length hands)) st)) = Throw e ->
     console (Delegated.detectHands true (Resolved hands) st) =
       console st ++ ["Hand detection error:"%string]).
Proof.
  intros Hv Hd Hc.
  split; [| split; [| split; [| split]]].
  - now rewrite (delegated_tick_unfold true _ st v d cv Hv Hd Hc).
  - now rewrite (delegated_tick_unfold true _ st v d cv Hv Hd Hc).
  - rewrite (delegated_tick_unfold true _ st v d cv Hv Hd Hc).
    now apply requestAnimationFrame_scheduledOne.
  - intros reply.
    rewrite (delegated_tick_unfold true _ st v d cv Hv Hd Hc).
    destruct (tryDetect_scheduler reply st) as (Hp & Hq & _).
    now apply requestAnimationFrame_scheduledOne.
  - intros hands e Ht.
    rewrite (delegated_tick_unfold true _ st v d cv Hv Hd Hc).
    unfold tryDetect.
    destruct (drawHands_only_canvas hands
                (setHandCount (Z.of_nat (List.length hands)) st)) as (c & E).
    destruct (Delegated.drawHands hands _) as [[| e'] st1];
      cbn [fst snd] in *; [discriminate |].
    subst st1. reflexivity.
Qed.

Lemma detector_failure_keeps_loop_witness :
  scheduledOne runningPage
    (Delegated.detectHands true (Rejected "busy") runningPage).
Proof.
  refine (proj1 (proj2 (proj2
            (detector_failure_keeps_loop "busy" runningPage _ _ _
               eq_refl eq_refl eq_refl)))).
Defined.

(** ** The hand count of the mock variants *)

Lemma mock_tick_count (sn cs : number -> number) (active : bool) (r : Q)
    (st : Page) :
  handCount (Mock.detectHands sn cs active r st) = handCount st \/
  handCount (Mock.detectHands sn cs active r st) = randomHandCount r.
Proof.
  unfold Mock.detectHands.
  destruct (videoRef st); [| now left].
  destruct (canvasRef st) as [cv |]; [| now left].
  destruct (context2d cv); [| now left].
  destruct active; [now right | now left].
Qed.

Lemma throttled_tick_count (sn cs : number -> number) (active : bool)
    (r : Q) (now_ ts : number) (st : Page) :
  handCount (Throttled.updateCanvas sn cs active r now_ ts st) =
    handCount st \/
  handCount (Throttled.updateCanvas sn cs active r now_ ts st) =
    randomHandCount r.
Proof.
  unfold Throttled.updateCanvas.
  destruct (videoRef st); [| now left].
  destruct (canvasRef st) as [cv |]; [| now left].
  destruct (Throttled.throttled ts st); [destruct active; now left |].
  destruct (context2d cv); [| now left].
  destruct active; [now right | now left].
Qed.

Section Runs.

Variable step : MockTick -> Page -> Page.

Hypothesis step_count :
  forall t st,
    handCount (step t st) = handCount st \/
    handCount (step t st) = randomHandCount (draw t).

(** Along a run whose draws are valid, the count stays what it was at the
    start until a frame is processed, and is 1 or 2 from then on. *)
Lemma run_counts (ticks : list MockTick) :
  Forall (fun t => validDraw (draw t)) ticks ->
  forall st0 st,
    countKeptOrOneTwo st0 st ->
    countKeptOrOneTwo st0 (fold_left (fun s t => step t s) ticks st).
Proof.
  induction 1 as [| t ticks Ht _ IH]; intros st0 st Hst; [exact Hst |].
  cbn [fold_left]. apply IH.
  destruct (step_count t st) as [E | E].
  - unfold countKeptOrOneTwo in *. rewrite E. exact Hst.
  - right. rewrite E. now apply randomHandCount_range.
Qed.

End Runs.

Lemma Forall_firstn {A : Type} (P : A -> Prop) (k : nat) (l : list A) :
  Forall P l -> Forall P (firstn k l).
Proof.
  intros H. rewrite <- (firstn_skipn k l) in H.
  now apply Forall_app in H.
Qed.



(** ** Stopping *)

Lemma remove_all_equal (id : Z) (l : list Z) :
  (forall x, In x l -> x = id) -> remove Z.eq_dec id l = [].
Proof.
  induction l as [| x l IH]; intros H; [reflexivity |].
  cbn. destruct (Z.eq_dec id x) as [_ | Hne].
  - apply IH. intros y Hy. apply H. now right.
  - exfalso. apply Hne. symmetry. apply H. now left.
Qed.

(** Cancelling the stored handle empties a tracked queue. *)
Lemma cancel_stored_handle (st : Page) :
  tracked st ->
  match truthyHandle (animationFrameRef st) with
  | Some id => remove Z.eq_dec id (rafPending st)
  | None => rafPending st
  end = [].
Proof.
  intros Ht. destruct (truthyHandle (animationFrameRef st)) as [id |] eqn:Eh.
  - apply remove_all_equal. intros y Hy.
    destruct (Ht y Hy) as (Hy' & _). rewrite Hy' in Eh. cbn in Eh.
    destruct (y =? 0); congruence.
  - destruct (rafPending st) as [| x l] eqn:E; [reflexivity |].
    destruct (Ht x) as (Hx & Hnz); [rewrite E; now left |].
    rewrite Hx in Eh. cbn in Eh.
    destruct (x =? 0) eqn:Ez; [apply Z.eqb_eq in Ez; lia | discriminate].
Qed.

Lemma releaseStream_spec (st : Page) :
  attachedStream (releaseStream st) = None /\
  stoppedTracks (releaseStream st) =
    stoppedTracks st ++
    match attachedStream st with
    | Some s => getTracks s
    | None => []
    end /\
  isActive (releaseStream st) = isActive st /\
  handCount (releaseStream st) = handCount st /\
  rafPending (releaseStream st) = rafPending st /\
  canvasRef (releaseStream st) = canvasRef st.
Proof.
  unfold releaseStream, attachedStream.
  destruct (videoRef st) as [v |] eqn:Hv.
  - destruct (srcObject v) as [s |] eqn:Hs; cbn.
    + repeat split.
    + rewrite Hv, Hs, app_nil_r. repeat split.
  - cbn. rewrite Hv, app_nil_r. repeat split.
Qed.

Lemma clearSurface_spec (st : Page) :
  surface (clearSurface st) = [] /\
  attachedStream (clearSurface st) = attachedStream st /\
  stoppedTracks (clearSurface st) = stoppedTracks st /\
  isActive (clearSurface st) = isActive st /\
  handCount (clearSurface st) = handCount st /\
  rafPending (clearSurface st) = rafPending st.
Proof.
  unfold clearSurface, surface.
  destruct (canvasRef st) as [cv |] eqn:Hc.
  - destruct (context2d cv) as [ctx |] eqn:Hx; cbn.
    + rewrite clearRect_whole. repeat split.
    + rewrite Hc, Hx. repeat split.
  - rewrite Hc. repeat split.
Qed.

(** What the shared tail of [stopDetection] achieves once the flags are
    reset and the queue is empty. *)
Lemma release_reaches_idle (st0 st : Page) :
  isActive st = false -> handCount st = 0 -> rafPending st = [] ->
  attachedStream st = attachedStream st0 ->
  stoppedTracks st = stoppedTracks st0 ->
  stoppedFrom st0 (clearSurface (releaseStream st)).
Proof.
  intros Ha Hh Hp Hs Ht.
  destruct (releaseStream_spec st) as (R1 & R2 & R3 & R4 & R5 & _).
  destruct (clearSurface_spec (releaseStream st))
    as (C1 & C2 & C3 & C4 & C5 & C6).
  unfold stoppedFrom, Idle.
  rewrite C1, C2, C3, C4, C5, C6, R1, R2, R3, R4, R5, Ha, Hh, Hp, Hs, Ht.
  repeat split.
Qed.

(** C3: from any state in which the queued tick, if there is one, is the
    one whose handle the component stores, [stopDetection] of each variant
    ends in the idle state: not active, hand count 0, no tick queued, no
    stream attached to the video sink, nothing painted on the surface; and
    [stop()] has been called exactly once on every track of the stream
    that was attached. *)
Theorem stop_reaches_idle (st : Page) :
  tracked st ->
  stoppedFrom st (Delegated.stopDetection st) /\
  stoppedFrom st (Mock.stopDetection st) /\
  stoppedFrom st (Throttled.stopDetection st).
Proof.
  intros Ht. pose proof (cancel_stored_handle st Ht) as Hc.
  unfold Delegated.stopDetection, Mock.stopDetection,
    Throttled.stopDetection.
  cbn [animationFrameRef setHandCount setIsActive].
  destruct (truthyHandle (animationFrameRef st)) as [id |];
    (split; [| split]); apply release_reaches_idle; try reflexivity;
    exact Hc.
Qed.

Lemma stop_reaches_idle_witness :
  stoppedFrom runningPage (Delegated.stopDetection runningPage).
Proof.
  refine (proj1 (stop_reaches_idle runningPage _)).
  intros id [E | []]. subst id. split; [reflexivity | discriminate].
Defined.

Lemma releaseStream_nothing_attached (st : Page) :
  attachedStream st = None -> releaseStream st = st.
Proof.
  unfold attachedStream, releaseStream.
  destruct (videoRef st) as [v |]; [| reflexivity].
  intros H. now rewrite H.
Qed.

Lemma clearSurface_blank (st : Page) :
  surface st = [] -> clearSurface st = st.
Proof.
  unfold surface, clearSurface.
  destruct (canvasRef st) as [cv |] eqn:Hc; [| reflexivity].
  destruct (context2d cv) as [ctx |] eqn:Hx; [| reflexivity].
  intros Hp. unfold putContext, clearRect. rewrite wholeSurface_own.
  destruct st, cv, ctx; cbn in *. now subst.
Qed.

Lemma resetFlags_quiet (st : Page) :
  isActive st = false -> handCount st = 0 ->
  setHandCount 0 (setIsActive false st) = st.
Proof. intros Ha Hh. destruct st; cbn in *. now subst. Qed.

Lemma cancel_spent (id : Z) (st : Page) :
  ~ In id (rafPending st) -> cancelAnimationFrame id st = st.
Proof.
  intros H. unfold cancelAnimationFrame.
  rewrite (notin_remove Z.eq_dec _ _ H). now destruct st.
Qed.

Lemma delegated_stop_fixed (st : Page) :
  quiet st -> handleSpent st -> Delegated.stopDetection st = st.
Proof.
  intros (Ha & Hh & Hs & Hp) Hsp. unfold Delegated.stopDetection.
  rewrite (resetFlags_quiet st Ha Hh). unfold handleSpent in Hsp.
  destruct (truthyHandle (animationFrameRef st)) as [id |].
  - rewrite (cancel_spent id st Hsp).
    now rewrite (releaseStream_nothing_attached st Hs), clearSurface_blank.
  - now rewrite (releaseStream_nothing_attached st Hs), clearSurface_blank.
Qed.

Lemma mock_stop_is_delegated_stop (st : Page) :
  Mock.stopDetection st = Delegated.stopDetection st.
Proof. reflexivity. Qed.

Lemma throttled_stop_fixed (st : Page) :
  quiet st -> handleSpent st ->
  Throttled.stopDetection st =
  match truthyHandle (animationFrameRef st) with
  | Some _ => set_animationFrameRef None st
  | None => st
  end.
Proof.
  intros (Ha & Hh & Hs & Hp) Hsp. unfold Throttled.stopDetection.
  rewrite (resetFlags_quiet st Ha Hh). unfold handleSpent in Hsp.
  destruct (truthyHandle (animationFrameRef st)) as [id |].
  - rewrite (cancel_spent id st Hsp).
    rewrite releaseStream_nothing_attached, clearSurface_blank;
      [reflexivity | exact Hp | exact Hs].
  - now rewrite (releaseStream_nothing_attached st Hs), clearSurface_blank.
Qed.

Lemma release_keeps_handle (st : Page) :
  animationFrameRef (clearSurface (releaseStream st)) = animationFrameRef st /\
  rafPending (clearSurface (releaseStream st)) = rafPending st.
Proof.
  unfold clearSurface, releaseStream.
  destruct (videoRef st) as [v |]; [destruct (srcObject v) |];
    cbn; (destruct (canvasRef st) as [cv |];
          [destruct (context2d cv) |]); now cbn.
Qed.

Lemma release_quiet (st : Page) :
  isActive st = false -> handCount st = 0 ->
  quiet (clearSurface (releaseStream st)).
Proof.
  intros Ha Hh.
  destruct (releaseStream_spec st) as (R1 & _ & R3 & R4 & _).
  destruct (clearSurface_spec (releaseStream st))
    as (C1 & C2 & _ & C4 & C5 & _).
  unfold quiet. now rewrite C1, C2, C4, C5, R1, R3, R4.
Qed.

(** After [stopDetection] of the delegated (or mock) variant the page is
    quiet and the handle that is still stored is spent. *)
Lemma delegated_stop_settles (st : Page) :
  quiet (Delegated.stopDetection st) /\
  handleSpent (Delegated.stopDetection st).
Proof.
  unfold Delegated.stopDetection. cbn [animationFrameRef setHandCount
    setIsActive]. split.
  - destruct (truthyHandle (animationFrameRef st));
      now apply release_quiet.
  - unfold handleSpent.
    destruct (truthyHandle (animationFrameRef st)) as [id |] eqn:E;
      match goal with
      | |- context [clearSurface (releaseStream ?s)] =>
          destruct (release_keeps_handle s) as (H1 & H2)
      end; rewrite H1, H2; cbn [animationFrameRef cancelAnimationFrame
        set_raf rafPending setHandCount setIsActive]; rewrite E.
    + apply remove_In.
    + exact I.
Qed.

Lemma throttled_stop_settles (st : Page) :
  quiet (Throttled.stopDetection st) /\
  truthyHandle (animationFrameRef (Throttled.stopDetection st)) = None.
Proof.
  unfold Throttled.stopDetection. cbn [animationFrameRef setHandCount
    setIsActive]. split.
  - destruct (truthyHandle (animationFrameRef st));
      now apply release_quiet.
  - destruct (truthyHandle (animationFrameRef st)) as [id |] eqn:E;
      match goal with
      | |- context [clearSurface (releaseStream ?s)] =>
          destruct (release_keeps_handle s) as (H1 & _)
      end; rewrite H1; cbn; [reflexivity | exact E].
Qed.

Lemma Idle_quiet_spent (st : Page) : Idle st -> quiet st /\ handleSpent st.
Proof.
  intros (Ha & Hh & Hs & Hp & Hf). split; [now repeat split |].
  unfold handleSpent. rewrite Hp.
  destruct (truthyHandle (animationFrameRef st)); [intros [] | exact I].
Qed.

Lemma initialPage_Idle : Idle initialPage.
Proof. repeat split. Qed.

(** C4: on a page that is already idle, [stopDetection] of the delegated
    and of the mock variant returns the page unchanged, and that of the
    throttled variant changes at most the stored handle, which it sets to
    null; in particular on the page as mounted, where [startDetection] was
    never called.  [stopDetection] cannot throw (it is a total function on
    pages), and calling it twice is the same as calling it once. *)
Theorem stop_when_idle_changes_nothing (st : Page) :
  Idle st ->
  Delegated.stopDetection st = st /\
  Mock.stopDetection st = st /\
  (Throttled.stopDetection st = st \/
   Throttled.stopDetection st = set_animationFrameRef None st) /\
  (Idle initialPage /\ Delegated.stopDetection initialPage = initialPage /\
   Mock.stopDetection initialPage = initialPage /\
   Throttled.stopDetection initialPage = initialPage) /\
  (forall s,
     Delegated.stopDetection (Delegated.stopDetection s) =
       Delegated.stopDetection s /\
     Mock.stopDetection (Mock.stopDetection s) = Mock.stopDetection s /\
     Throttled.stopDetection (Throttled.stopDetection s) =
       Throttled.stopDetection s).
Proof.
  intros Hi. destruct (Idle_quiet_spent st Hi) as (Hq & Hs).
  split; [| split; [| split; [| split]]].
  - now apply delegated_stop_fixed.
  - rewrite mock_stop_is_delegated_stop. now apply delegated_stop_fixed.
  - rewrite (throttled_stop_fixed st Hq Hs).
    destruct (truthyHandle (animationFrameRef st)); [now right | now left].
  - repeat split.
  - intros s. split; [| split].
    + destruct (delegated_stop_settles s) as (Q & S).
      now apply delegated_stop_fixed.
    + rewrite !mock_stop_is_delegated_stop.
      destruct (delegated_stop_settles s) as (Q & S).
      now apply delegated_stop_fixed.
    + destruct (throttled_stop_settles s) as (Q & S).
      rewrite (throttled_stop_fixed (Throttled.stopDetection s) Q).
      * now rewrite S.
      * unfold handleSpent. now rewrite S.
Qed.

Lemma stop_when_idle_changes_nothing_witness :
  Delegated.stopDetection (Delegated.stopDetection runningPage) =
  Delegated.stopDetection runningPage.
Proof.
  refine (proj1 (stop_when_idle_changes_nothing
                   (Delegated.stopDetection runningPage) _)).
  repeat split.
Defined.

(** The throttled variant does what C5 asks: whenever [stopDetection]
    cancels, no cancellable handle is stored afterwards, and nothing is
    queued under the handle that was stored. *)
Lemma throttled_stop_nulls_handle (st : Page) (id : Z) :
  truthyHandle (animationFrameRef st) = Some id ->
  animationFrameRef (Throttled.stopDetection st) = None /\
  ~ In id (rafPending (Throttled.stopDetection st)).
Proof.
  intros E. unfold Throttled.stopDetection.
  cbn [animationFrameRef setHandCount setIsActive]. rewrite E.
  match goal with
  | |- context [clearSurface (releaseStream ?s)] =>
      destruct (release_keeps_handle s) as (H1 & H2)
  end.
  rewrite H1, H2. split; [reflexivity |]. cbn. apply remove_In.
Qed.


(** ** Starting before the detector is ready *)

(** C8: in the delegated variant, [startDetection] called while the
    detector is not yet loaded changes the error cell to the "model not
    loaded" message and nothing else: no camera request is made, no
    stream is attached, no tick is requested, [isActive] and the other
    cells keep their values, the [catch] clause does not run (nothing is
    logged) and the page does not carry the mark of a failed
    acquisition. *)
Theorem start_before_model_ready (camera : CameraReply) (play : PlayReply)
    (st : Page) :
  detectorRef st = None ->
  Delegated.startDetection camera play st =
    setError (Some Delegated.modelNotLoaded) st /\
  error (Delegated.startDetection camera play st) =
    Some Delegated.modelNotLoaded /\
  cameraRequests (Delegated.startDetection camera play st) =
    cameraRequests st /\
  attachedStream (Delegated.startDetection camera play st) =
    attachedStream st /\
  scheduledNone st (Delegated.startDetection camera play st) /\
  animationFrameRef (Delegated.startDetection camera play st) =
    animationFrameRef st /\
  isActive (Delegated.startDetection camera play st) = isActive st /\
  console (Delegated.startDetection camera play st) = console st /\
  ~ acquisitionFailed (Delegated.startDetection camera play st).
Proof.
  intros Hd.
  assert (E : Delegated.startDetection camera play st =
              setError (Some Delegated.modelNotLoaded) st).
  { unfold Delegated.startDetection. cbn [detectorRef setError].
    now rewrite Hd. }
  rewrite E. repeat split. unfold acquisitionFailed. cbn. discriminate.
Qed.

Lemma start_before_model_ready_witness :
  cameraRequests
    (Delegated.startDetection (Granted liveStream) Playing initialPage) =
  cameraRequests initialPage.
Proof.
  refine (proj1 (proj2 (proj2
            (start_before_model_ready (Granted liveStream) Playing
               initialPage eq_refl)))).
Defined.

(** With the detector loaded, the same call does request the camera, and a
    refusal runs the [catch] clause and leaves the mark of a failed
    acquisition. *)
Lemma start_with_model_requests_camera (camera : CameraReply)
    (play : PlayReply) (st : Page) (d : Detector) :
  detectorRef st = Some d ->
  cameraRequests (Delegated.startDetection camera play st) =
    S (cameraRequests st) /\
  (forall err,
     camera = Refused err ->
     acquisitionFailed (Delegated.startDetection camera play st)).
Proof.
  intros Hd. unfold Delegated.startDetection. cbn [detectorRef setError].
  rewrite Hd. split.
  - destruct camera; [| reflexivity].
    cbn. destruct (videoRef st); [destruct play |]; reflexivity.
  - intros err ->. reflexivity.
Qed.

(** ** The scheduling invariant

    The hypothesis of [stop_reaches_idle] holds of every page the
    component can reach: [wellScheduled] holds when the component mounts,
    implies [tracked], and is kept by every operation, a tick being run by
    the host after it has taken the tick's request out of the queue. *)

Lemma wellScheduled_tracked (st : Page) : wellScheduled st -> tracked st.
Proof.
  intros (Hn & [Hp | (id & Hp & Hr & Hid)]) x Hx; rewrite Hp in Hx.
  - destruct Hx.
  - destruct Hx as [<- | []]. split; [exact Hr | lia].
Qed.

Lemma wellScheduled_initial : wellScheduled initialPage.
Proof. split; [reflexivity | now left]. Qed.

Lemma wellScheduled_after (st st' : Page) :
  0 < rafNext st -> rafPending st = [] ->
  scheduledOne st st' \/ scheduledNone st st' ->
  wellScheduled st'.
Proof.
  intros Hn Hp [(E1 & E2 & E3) | (E1 & E2)]; unfold wellScheduled.
  - rewrite E1, E2, Hp. split; [lia |]. right.
    exists (rafNext st). repeat split; [exact E3 | lia | lia].
  - rewrite E1, E2, Hp. split; [exact Hn | now left].
Qed.

Lemma takeFrame_empties (st : Page) :
  wellScheduled st ->
  0 < rafNext (takeFrame st) /\ rafPending (takeFrame st) = [].
Proof.
  intros (Hn & [Hp | (id & Hp & _)]); cbn; now rewrite Hp.
Qed.

Lemma scheduledNone_refl (st : Page) : scheduledNone st st.
Proof. now split. Qed.

Lemma delegated_tick_one_or_none (active : bool) (reply : Estimate)
    (st : Page) :
  scheduledOne st (Delegated.detectHands active reply st) \/
  scheduledNone st (Delegated.detectHands active reply st).
Proof.
  pose proof (delegated_tick_scheduling active reply st) as H.
  destruct active.
  - destruct H as [H | H]; [now left | right; rewrite H; now split].
  - now right.
Qed.

Lemma mock_tick_one_or_none (sn cs : number -> number) (active : bool)
    (r : Q) (st : Page) :
  scheduledOne st (Mock.detectHands sn cs active r st) \/
  scheduledNone st (Mock.detectHands sn cs active r st).
Proof.
  destruct active; [| right; apply mock_tick_inactive].
  unfold Mock.detectHands.
  destruct (videoRef st); [| right; now split].
  destruct (canvasRef st) as [cv |]; [| right; now split].
  destruct (context2d cv); [left | right]; now repeat split.
Qed.

Lemma throttled_tick_one_or_none (sn cs : number -> number) (active : bool)
    (r : Q) (now_ ts : number) (st : Page) :
  scheduledOne st (Throttled.updateCanvas sn cs active r now_ ts st) \/
  scheduledNone st (Throttled.updateCanvas sn cs active r now_ ts st).
Proof.
  destruct active; [| right; apply throttled_tick_inactive].
  unfold Throttled.updateCanvas.
  destruct (videoRef st); [| right; now split].
  destruct (canvasRef st) as [cv |]; [| right; now split].
  destruct (Throttled.throttled ts st); [left; now repeat split |].
  destruct (context2d cv); [left | right]; now repeat split.
Qed.

Lemma release_keeps_next (st : Page) :
  rafNext (clearSurface (releaseStream st)) = rafNext st.
Proof.
  unfold clearSurface, releaseStream.
  destruct (videoRef st) as [v |]; [destruct (srcObject v) |];
    cbn; (destruct (canvasRef st) as [cv |];
          [destruct (context2d cv) |]); now cbn.
Qed.

Lemma wellScheduled_kept (st : Page) :
  wellScheduled st ->
  (forall active reply,
     wellScheduled (Delegated.detectHands active reply (takeFrame st))) /\
  (forall sn cs active r,
     wellScheduled (Mock.detectHands sn cs active r (takeFrame st))) /\
  (forall sn cs active r now_ ts,
     wellScheduled
       (Throttled.updateCanvas sn cs active r now_ ts (takeFrame st))) /\
  wellScheduled (Delegated.stopDetection st) /\
  wellScheduled (Mock.stopDetection st) /\
  wellScheduled (Throttled.stopDetection st) /\
  (forall camera play,
     wellScheduled (Delegated.startDetection camera play st)).
Proof.
  intros Hw. destruct (takeFrame_empties st Hw) as (Hn & Hp).
  pose proof (cancel_stored_handle st (wellScheduled_tracked st Hw)) as Hc.
  assert (Hstop : wellScheduled (Delegated.stopDetection st)).
  { unfold wellScheduled, Delegated.stopDetection.
    rewrite release_keeps_next.
    match goal with
    | |- context [clearSurface (releaseStream ?s)] =>
        destruct (release_keeps_handle s) as (_ & H2)
    end.
    rewrite H2. cbn [animationFrameRef setHandCount setIsActive].
    destruct (truthyHandle (animationFrameRef st)); cbn in *;
      (split; [exact (proj1 Hw) | left; exact Hc]). }
  repeat match goal with |- _ /\ _ => split end.
  - intros. eapply wellScheduled_after; eauto using delegated_tick_one_or_none.
  - intros. eapply wellScheduled_after; eauto using mock_tick_one_or_none.
  - intros.
    eapply wellScheduled_after; eauto using throttled_tick_one_or_none.
  - exact Hstop.
  - exact Hstop.
  - unfold wellScheduled, Throttled.stopDetection.
    rewrite release_keeps_next.
    match goal with
    | |- context [clearSurface (releaseStream ?s)] =>
        destruct (release_keeps_handle s) as (_ & H2)
    end.
    rewrite H2. cbn [animationFrameRef setHandCount setIsActive].
    destruct (truthyHandle (animationFrameRef st)); cbn in *;
      (split; [exact (proj1 Hw) | left; exact Hc]).
  - intros camera play. unfold Delegated.startDetection.
    cbn [detectorRef setError].
    destruct (detectorRef st); [| exact Hw].
    destruct camera; [| exact Hw].
    cbn. destruct (videoRef st); [destruct play |]; exact Hw.
Qed.

Lemma wellScheduled_onloadedmetadata (active : bool) (reply : Estimate)
    (st : Page) :
  wellScheduled st -> rafPending st = [] ->
  wellScheduled (Delegated.onloadedmetadata active reply st).
Proof.
  intros Hw Hp. unfold Delegated.onloadedmetadata.
  destruct (videoRef st) as [v |]; [| exact Hw].
  destruct (canvasRef st) as [cv |]; [| exact Hw].
  eapply wellScheduled_after;
    [| | apply delegated_tick_one_or_none]; [exact (proj1 Hw) | exact Hp].
Qed.

(** ** The value of [isActive] that the started ticks read *)

(** The button carries [startDetection] only in a render whose [isActive]
    is false, so the closures in scope of a clicked [startDetection], the
    tick among them, read [isActive] as false. *)
Lemma onClick_start (rendered : bool) :
  onClick rendered = StartDetection -> rendered = false.
Proof. destruct rendered; [discriminate | reflexivity]. Qed.

Lemma tryDetect_keeps_flags (reply : Estimate) (st : Page) :
  isActive (tryDetect reply st) = isActive st /\
  stoppedTracks (tryDetect reply st) = stoppedTracks st /\
  videoRef (tryDetect reply st) = videoRef st.
Proof.
  unfold tryDetect. destruct reply as [hands | err]; [| now cbn].
  destruct (drawHands_only_canvas hands
              (setHandCount (Z.of_nat (List.length hands)) st)) as (c & E).
  destruct (Delegated.drawHands hands _) as [[| e] st1];
    cbn [snd] in E; subst st1; now cbn.
Qed.

Lemma delegated_tick_keeps_isActive (active : bool) (reply : Estimate)
    (st : Page) :
  isActive (Delegated.detectHands active reply st) = isActive st.
Proof.
  destruct (videoRef st) as [v |] eqn:Hv;
    [destruct (detectorRef st) as [d |] eqn:Hd;
     [destruct (canvasRef st) as [cv |] eqn:Hc |] |].
  - rewrite (delegated_tick_unfold _ reply st v d cv Hv Hd Hc).
    destruct (tryDetect_keeps_flags reply st) as (Ha & _).
    destruct active; cbn; exact Ha.
  - unfold Delegated.detectHands. now rewrite Hv, Hd, Hc.
  - unfold Delegated.detectHands. now rewrite Hv, Hd.
  - unfold Delegated.detectHands. now rewrite Hv.
Qed.

(** The first tick of the delegated variant, as the metadata handler of a
    render that reads [isActive] as false runs it. *)
Lemma delegated_first_tick_stale (reply : Estimate) (st : Page) (v : Video)
    (cv : Canvas) :
  videoRef st = Some v -> canvasRef st = Some cv ->
  isActive (Delegated.onloadedmetadata false reply st) = true /\
  scheduledNone st (Delegated.onloadedmetadata false reply st).
Proof.
  intros Hv Hc. unfold Delegated.onloadedmetadata. rewrite Hv, Hc.
  match goal with
  | |- context [Delegated.detectHands false reply ?s] =>
      pose proof (delegated_tick_keeps_isActive false reply s) as Ha;
      pose proof (delegated_tick_scheduling false reply s) as Hs
  end.
  cbv beta iota in Hs. split; [rewrite Ha; reflexivity |].
  destruct Hs as (Hp & Hn). split; [rewrite Hp | rewrite Hn]; reflexivity.
Qed.

(** C1 fails on the code: the ticks that the component runs read a stale
    [isActive].  Whatever render's [startDetection] the button carried,
    its ticks request no further tick and the mock ones never process a
    frame, in every state; in particular the first tick, which the
    metadata handler runs (or queues, in the throttled variant) right
    after [setIsActive(true)], leaves the page with [isActive] true and
    no next tick requested by it: the delegated one has drawn its frame
    once, the mock one has copied the video frame without counting or
    drawing hands, and the throttled one, run by the host, has emptied
    the queue. *)
Theorem started_ticks_read_stale_isActive (rendered : bool) :
  onClick rendered = StartDetection ->
  (forall reply st,
     scheduledNone st (Delegated.detectHands rendered reply st)) /\
  (forall sn cs r st,
     scheduledNone st (Mock.detectHands sn cs rendered r st) /\
     handCount (Mock.detectHands sn cs rendered r st) = handCount st) /\
  (forall sn cs r now_ ts st,
     scheduledNone st (Throttled.updateCanvas sn cs rendered r now_ ts st) /\
     handCount (Throttled.updateCanvas sn cs rendered r now_ ts st) =
       handCount st) /\
  (forall reply st v cv ctx,
     ready st v cv ctx ->
     isActive (Delegated.onloadedmetadata rendered reply st) = true /\
     scheduledNone st (Delegated.onloadedmetadata rendered reply st)) /\
  (forall sn cs r st v cv ctx,
     ready st v cv ctx ->
     isActive (Mock.onloadedmetadata sn cs rendered r st) = true /\
     handCount (Mock.onloadedmetadata sn cs rendered r st) = handCount st /\
     surface (Mock.onloadedmetadata sn cs rendered r st) =
       [Image (currentFrame v) 0%float 0%float (videoWidth v)
          (videoHeight v)] /\
     scheduledNone st (Mock.onloadedmetadata sn cs rendered r st)) /\
  (forall sn cs r now_ ts st v cv ctx,
     ready st v cv ctx ->
     rafPending st = [] ->
     isActive (Throttled.onloadedmetadata Playing st) = true /\
     rafPending (Throttled.onloadedmetadata Playing st) = [rafNext st] /\
     isActive
       (Throttled.updateCanvas sn cs rendered r now_ ts
          (takeFrame (Throttled.onloadedmetadata Playing st))) = true /\
     handCount
       (Throttled.updateCanvas sn cs rendered r now_ ts
          (takeFrame (Throttled.onloadedmetadata Playing st))) =
       handCount st /\
     rafPending
       (Throttled.updateCanvas sn cs rendered r now_ ts
          (takeFrame (Throttled.onloadedmetadata Playing st))) = []).
Proof.
  intros Hr. apply onClick_start in Hr. subst rendered.
  repeat match goal with |- _ /\ _ => split end.
  - intros reply st. exact (delegated_tick_scheduling false reply st).
  - intros sn cs r st. exact (mock_tick_inactive sn cs r st).
  - intros sn cs r now_ ts st.
    exact (throttled_tick_inactive sn cs r now_ ts st).
  - intros reply st v cv ctx (Hv & Hc & _).
    exact (delegated_first_tick_stale reply st v cv Hv Hc).
  - intros sn cs r st v cv ctx (Hv & Hc & Hx).
    unfold Mock.onloadedmetadata. rewrite Hv, Hc.
    rewrite (mock_tick_unfold sn cs false r _ v
               (Delegated.resize (videoWidth v) (videoHeight v) cv)
               blankContext).
    + now repeat split.
    + split; [exact Hv |]. split; [reflexivity |].
      unfold Delegated.resize. cbn. now rewrite Hx.
  - intros sn cs r now_ ts st v cv ctx (Hv & Hc & Hx) Hp.
    unfold Throttled.onloadedmetadata. rewrite Hv, Hc.
    match goal with
    | |- context [Throttled.updateCanvas sn cs false r now_ ts ?s] =>
        destruct (throttled_tick_inactive sn cs r now_ ts s)
          as ((Tp & _) & Th);
        assert (Ta : isActive
                       (Throttled.updateCanvas sn cs false r now_ ts s) =
                     isActive s)
    end.
    { unfold Throttled.updateCanvas. cbn [videoRef canvasRef takeFrame
        set_raf requestAnimationFrame set_animationFrameRef setIsLoading
        setIsActive set_canvasRef]. rewrite Hv.
      match goal with
      | |- context [Throttled.throttled ts ?s] =>
          destruct (Throttled.throttled ts s)
      end; [reflexivity |].
      cbn. now rewrite Hx. }
    rewrite Ta, Th, Tp. cbn. rewrite Hp. now repeat split.
Qed.

Lemma started_ticks_read_stale_isActive_witness :
  isActive
    (Delegated.onloadedmetadata false (Resolved [handOf 21 0.9%float])
       startedPage) = true /\
  scheduledNone startedPage
    (Delegated.onloadedmetadata false (Resolved [handOf 21 0.9%float])
       startedPage).
Proof.
  refine (proj1 (proj2 (proj2 (proj2
            (started_ticks_read_stale_isActive false eq_refl))))
            (Resolved [handOf 21 0.9%float]) startedPage _ _ _ _).
  repeat split.
Defined.

(** C6 fails on the code: a throttled tick stalls the loop.  The
    [updateCanvas] that [startDetection] hands to the scheduler reads
    [isActive] as false; on a mounted page whose [isActive] cell is true,
    when the tick comes less than 33 ms after the last processed
    timestamp, it changes nothing at all, so no next tick is requested and
    the chain ends. *)
Theorem throttled_skip_stalls_started_loop (rendered : bool)
    (sn cs : number -> number) (r : Q) (now_ ts : number) (st : Page)
    (v : Video) (cv : Canvas) :
  onClick rendered = StartDetection ->
  isActive st = true ->
  videoRef st = Some v ->
  canvasRef st = Some cv ->
  Throttled.throttled ts st = true ->
  Throttled.updateCanvas sn cs rendered r now_ ts st = st /\
  isActive (Throttled.updateCanvas sn cs rendered r now_ ts st) = true /\
  scheduledNone st (Throttled.updateCanvas sn cs rendered r now_ ts st).
Proof.
  intros Hr Ha Hv Hc Ht. apply onClick_start in Hr. subst rendered.
  rewrite (throttled_tick_skipped sn cs false r now_ ts st v cv Hv Hc Ht).
  split; [reflexivity |]. split; [exact Ha | now split].
Qed.

Lemma throttled_skip_stalls_started_loop_witness :
  rafPending
    (Throttled.updateCanvas (fun x => x) (fun x => x) false (1 # 2) 0%float
       10%float (takeFrame (Throttled.onloadedmetadata Playing loadedPage))) =
  [].
Proof.
  refine ((fun H => eq_trans (proj1 (proj2 (proj2 H))) eq_refl)
            (throttled_skip_stalls_started_loop false (fun x => x)
               (fun x => x) (1 # 2)%Q 0%float 10%float
               (takeFrame (Throttled.onloadedmetadata Playing loadedPage))
               _ _ eq_refl eq_refl eq_refl eq_refl eq_refl)).
Defined.

(** C7 fails on the code: a detector failure ends the loop.  The
    [detectHands] that the metadata handler starts reads [isActive] as
    false; when its detector call rejects on a mounted page, the failure
    is logged and nothing else happens, so that, although the handler has
    just set the [isActive] cell to true, no next tick is requested. *)
Theorem detector_failure_ends_started_loop (rendered : bool) (err : string)
    (st : Page) (v : Video) (d : Detector) (cv : Canvas) :
  onClick rendered = StartDetection ->
  videoRef st = Some v ->
  detectorRef st = Some d ->
  canvasRef st = Some cv ->
  Delegated.detectHands rendered (Rejected err) st =
    console_error "Hand detection error:" st /\
  scheduledNone st (Delegated.detectHands rendered (Rejected err) st) /\
  isActive (Delegated.onloadedmetadata rendered (Rejected err) st) = true /\
  console (Delegated.onloadedmetadata rendered (Rejected err) st) =
    console st ++ ["Hand detection error:"%string] /\
  scheduledNone st (Delegated.onloadedmetadata rendered (Rejected err) st).
Proof.
  intros Hr Hv Hd Hc. apply onClick_start in Hr. subst rendered.
  rewrite (delegated_tick_unfold false _ st v d cv Hv Hd Hc).
  unfold Delegated.onloadedmetadata. rewrite Hv, Hc.
  rewrite (delegated_tick_unfold false (Rejected err)
             (setIsActive true
                (set_canvasRef
                   (Some (Delegated.resize (videoWidth v) (videoHeight v) cv))
                   st))
             v d (Delegated.resize (videoWidth v) (videoHeight v) cv)
             Hv Hd eq_refl).
  now repeat split.
Qed.

Lemma detector_failure_ends_started_loop_witness :
  isActive (Delegated.onloadedmetadata false (Rejected "busy") startedPage) =
    true /\
  rafPending
    (Delegated.onloadedmetadata false (Rejected "busy") startedPage) = [].
Proof.
  refine ((fun H =>
             conj (proj1 (proj2 (proj2 H)))
               (proj1 (proj2 (proj2 (proj2 (proj2 H))))))
            (detector_failure_ends_started_loop false "busy" startedPage
               _ _ _ eq_refl eq_refl eq_refl eq_refl)).
Defined.

(** The metadata handlers of the mock variants keep the scheduling
    invariant, like the operations of [wellScheduled_kept]. *)
Lemma wellScheduled_mock_metadata (st : Page) :
  wellScheduled st -> rafPending st = [] ->
  (forall sn cs active r,
     wellScheduled (Mock.onloadedmetadata sn cs active r st)) /\
  (forall play, wellScheduled (Throttled.onloadedmetadata play st)).
Proof.
  intros Hw Hp. split.
  - intros sn cs active r. unfold Mock.onloadedmetadata.
    destruct (videoRef st) as [v |]; [| exact Hw].
    destruct (canvasRef st) as [cv |]; [| exact Hw].
    eapply wellScheduled_after;
      [| | apply mock_tick_one_or_none]; [exact (proj1 Hw) | exact Hp].
  - intros play. unfold Throttled.onloadedmetadata.
    destruct (videoRef st) as [v |]; [| exact Hw].
    destruct (canvasRef st) as [cv |]; [| exact Hw].
    destruct play.
    + apply (wellScheduled_after st); [exact (proj1 Hw) | exact Hp |].
      left. now repeat split.
    + apply (wellScheduled_after st); [exact (proj1 Hw) | exact Hp |].
      right. now split.
Qed.
